(** * video_transcriber: the upload-to-transcription pipeline

    A shallow embedding of the request pipeline of the service:
    - [app/entrypoints/fastapi_app.py]   ([create_app], [transcribe_media],
      [health_check]),
    - [app/service/manager.py]           ([ServiceManager.transcribe_media]),
    - [app/adapters/openai_transcription_adapter.py]
                                         ([transcribe_from_upload]),
    - [app/adapters/ffmpeg_audio_extraction_adapter.py]
                                         ([extract_audio_stream],
                                          [_extract_audio_with_ffmpeg]),
    - [app/entrypoints/dtos.py], [app/ports.py], [app/bootstrap.py].

    Python strings are [string]s whose characters are read as the code
    points U+0000..U+00FF; byte contents are [list Byte.byte]; the temporary
    directory is a [gmap] from paths to contents; effects (file system,
    position of the upload stream, external tool, remote API, log) are
    threaded through a state-and-exception monad. *)

From Stdlib Require Import String Ascii List Bool Arith NArith ZArith Lia.
From stdpp Require Import base option gmap strings list fin_maps.

Import ListNotations.
Local Open Scope string_scope.

(** ** Python [str] operations used by the pipeline *)

Module PyStr.

Definition code (c : ascii) : N := N_of_ascii c.

(** Upper-case letters among U+0000..U+00FF: [A-Z], and U+00C0..U+00DE
    without the multiplication sign U+00D7. *)
Definition is_upper (c : ascii) : bool :=
  let n := code c in
  ((65 <=? n)%N && (n <=? 90)%N)
  || ((192 <=? n)%N && (n <=? 222)%N && negb (n =? 215)%N).

(** [str.lower] on one character. *)
Definition lower_char (c : ascii) : ascii :=
  if is_upper c then ascii_of_N (code c + 32) else c.

(** [str.lower()]. Code points above U+00FF are not represented; the only
    ones that lower to an ASCII letter are U+212A (to [k]) and U+0130 (to
    [i] and a combining dot), and neither letter occurs in the allow-list of
    extensions. *)
Fixpoint lower (s : string) : string :=
  match s with
  | EmptyString => EmptyString
  | String c r => String (lower_char c) (lower r)
  end.

(** [s.startswith(p)] *)
Definition startswith (s p : string) : bool := String.prefix p s.

(** [s.startswith((p1, p2, ...))]: true when some member is a prefix. *)
Definition startswith_any (s : string) (ps : list string) : bool :=
  existsb (startswith s) ps.

(** [s[i:]] and [s[:i]] for [0 <= i]. *)
Fixpoint slice_from (i : nat) (s : string) : string :=
  match i, s with
  | O, _ => s
  | S _, EmptyString => EmptyString
  | S j, String _ r => slice_from j r
  end.

Fixpoint slice_to (i : nat) (s : string) : string :=
  match i, s with
  | O, _ => EmptyString
  | S _, EmptyString => EmptyString
  | S j, String c r => String c (slice_to j r)
  end.

(** [s.rfind(c)]: the highest index holding [c], or [-1]. *)
Fixpoint rfind (c : ascii) (s : string) : Z :=
  match s with
  | EmptyString => (-1)%Z
  | String d r =>
      let k := rfind c r in
      if (0 <=? k)%Z then (k + 1)%Z
      else if Ascii.eqb d c then 0%Z else (-1)%Z
  end.

(** [s.split(sep)] for a one-character separator. *)
Fixpoint split (sep : ascii) (s : string) : list string :=
  match s with
  | EmptyString => [EmptyString]
  | String c r =>
      if Ascii.eqb c sep then EmptyString :: split sep r
      else match split sep r with
           | [] => [String c EmptyString]
           | p :: ps => String c p :: ps
           end
  end.

(** [x or default] on an optional string: [None] and [""] are falsy. *)
Definition or_default (x : option string) (d : string) : string :=
  match x with
  | Some (String c r) => String c r
  | _ => d
  end.

(** Truthiness of an optional string. *)
Definition truthy (x : option string) : bool :=
  match x with
  | Some (String _ _) => true
  | _ => false
  end.

End PyStr.

(** ** [pathlib.Path] on a POSIX host: [name], [suffix], [stem] *)

Module PurePath.

Definition dot : ascii := "."%char.
Definition slash : ascii := "/"%char.

(** The components kept by the path parser: empty components and ["."]
    are dropped. *)
Definition keep_part (p : string) : bool :=
  negb (String.eqb p "" || String.eqb p ".").

Definition parts (s : string) : list string :=
  List.filter keep_part (PyStr.split slash s).

(** [Path(s).name]: the final component, [""] when there is none. *)
Definition name (s : string) : string := List.last (parts s) "".

(** [Path(s).suffix]:
    [i = name.rfind('.'); name[i:] if 0 < i < len(name) - 1 else ''] *)
Definition suffix (s : string) : string :=
  let n := name s in
  let i := PyStr.rfind dot n in
  if ((0 <? i)%Z && (i <? Z.of_nat (String.length n) - 1)%Z)%bool
  then PyStr.slice_from (Z.to_nat i) n
  else "".

(** [Path(s).stem]:
    [i = name.rfind('.'); name[:i] if 0 < i < len(name) - 1 else name] *)
Definition stem (s : string) : string :=
  let n := name s in
  let i := PyStr.rfind dot n in
  if ((0 <? i)%Z && (i <? Z.of_nat (String.length n) - 1)%Z)%bool
  then PyStr.slice_to (Z.to_nat i) n
  else n.

End PurePath.

(** ** Values, exceptions and the world *)

Definition bytes : Type := list Byte.byte.

(** The exceptions ([Exception] subclasses) that travel through the
    pipeline: [ffmpeg.Error] with its captured [stderr], and any other
    exception, kept as its class name and message. *)
Inductive Exc : Type :=
| ffmpeg_Error (stderr : option string)
| PyException (cls msg : string).

Definition is_ffmpeg_Error (e : Exc) : bool :=
  match e with ffmpeg_Error _ => true | PyException _ _ => false end.

(** [str(e)] *)
Definition exc_str (e : Exc) : string :=
  match e with
  | ffmpeg_Error _ => "ffmpeg error (see stderr output for detail)"
  | PyException _ msg => msg
  end.

Inductive Result (A : Type) : Type :=
| Ok (a : A)
| Raise (e : Exc).
Arguments Ok {A} a.
Arguments Raise {A} e.

(** The two kinds of stream handed to the transcription client:
    [uploaded_file.file], the upload's own file object (its position lives
    in the world and is shared with the upload), and a fresh [BytesIO]. *)
Inductive BinaryIO : Type :=
| UploadedFile_file
| BytesIO (data : bytes).

(** [fastapi.UploadFile] *)
Record UploadFile : Type := mkUpload {
  filename : option string;
  content_type : option string;
  size : option nat;
  content : bytes
}.

(** What the process does to its surroundings, in order. *)
Inductive Event : Type :=
| EvUploadSeek (pos : nat)
| EvUploadRead (data : bytes)
| EvTmpCreate (path : string)
| EvFileWrite (path : string) (data : bytes)
| EvFfmpeg (input output : string)
| EvFileRead (path : string) (data : bytes)
| EvUnlink (path : string)
| EvOpenAI (model file_name : string) (payload : bytes).

Inductive LogLevel : Type := DEBUG | INFO | WARNING | ERROR.

(** A log record: level, event text and, where the call passes one, the
    [error=] or [stderr=] field; the other key-value fields are not kept. *)
Record LogRecord : Type := mkLog {
  log_level : LogLevel;
  log_event : string;
  log_detail : option string
}.

Record World : Type := mkWorld {
  w_fs : gmap string bytes;   (* the files of the temporary directory *)
  w_pos : nat;                (* position of the upload's file object *)
  w_tmp : nat;                (* temporary names drawn so far *)
  w_trace : list Event;
  w_log : list LogRecord
}.

(** Points of the transcoding path where the host may raise. *)
Inductive FaultPoint : Type :=
| AtUploadRead | AtTempWrite | AtTempFlush | AtOutputOpen | AtOutputRead.

(** What one run of the external tool does with a given input content. *)
Inductive FfmpegOutcome : Type :=
| FfmpegDone (out : bytes)
    (* exit status 0, [out] written to the output path *)
| FfmpegFailed (stderr : option string) (written : option bytes)
    (* [ffmpeg.Error]; the output path is untouched or holds [written] *)
| FfmpegNotRun (e : Exc).
    (* the subprocess could not be started *)

(** The behaviour of everything outside the process. *)
Record Env : Type := mkEnv {
  env_tmp_name : nat -> option string;
    (* the random part of the n-th temporary name; [None]: no file can be
       created *)
  env_fault : FaultPoint -> option Exc;
  env_ffmpeg : bytes -> FfmpegOutcome;
  env_openai : string -> string -> bytes -> Result string
    (* the remote API: model, file name, payload *)
}.

(** ** The state-and-exception monad *)

Definition M (A : Type) : Type := World -> Result A * World.

Definition ret {A} (a : A) : M A := fun w => (Ok a, w).

Definition bind {A B} (m : M A) (f : A -> M B) : M B :=
  fun w => match m w with
           | (Ok a, w') => f a w'
           | (Raise e, w') => (Raise e, w')
           end.

Definition raise {A} (e : Exc) : M A := fun w => (Raise e, w).

(** [try: m  except Exception as e: h e] *)
Definition try_except {A} (m : M A) (h : Exc -> M A) : M A :=
  fun w => match m w with
           | (Ok a, w') => (Ok a, w')
           | (Raise e, w') => h e w'
           end.

(** [try: m  except C as e: h e] for the exceptions selected by [sel]. *)
Definition try_except_if {A} (sel : Exc -> bool) (m : M A) (h : Exc -> M A)
  : M A :=
  try_except m (fun e => if sel e then h e else raise e).

(** [try: m  finally: fin]: [fin] always runs; an exception of [fin]
    replaces the outcome of [m]. *)
Definition try_finally {A} (m : M A) (fin : M unit) : M A :=
  fun w => let '(r, w1) := m w in
           match fin w1 with
           | (Ok _, w2) => (r, w2)
           | (Raise e, w2) => (Raise e, w2)
           end.

Declare Scope pipeline_scope.
Delimit Scope pipeline_scope with pipeline.
Notation "x <- m ;; k" := (bind m (fun x => k))
  (at level 100, m at next level, right associativity) : pipeline_scope.
Notation "m ;; k" := (bind m (fun _ => k))
  (at level 100, right associativity) : pipeline_scope.
Local Open Scope pipeline_scope.

(** ** Primitive effects *)

Definition set_fs (f : gmap string bytes) (w : World) : World :=
  mkWorld f (w_pos w) (w_tmp w) (w_trace w) (w_log w).
Definition set_pos (p : nat) (w : World) : World :=
  mkWorld (w_fs w) p (w_tmp w) (w_trace w) (w_log w).
Definition set_tmp (n : nat) (w : World) : World :=
  mkWorld (w_fs w) (w_pos w) n (w_trace w) (w_log w).

Definition emit (ev : Event) : M unit :=
  fun w => (Ok tt,
            mkWorld (w_fs w) (w_pos w) (w_tmp w) (w_trace w ++ [ev]) (w_log w)).

(** [logger.<level>(event, ...)] *)
Definition log (lvl : LogLevel) (event : string) (detail : option string)
  : M unit :=
  fun w => (Ok tt,
            mkWorld (w_fs w) (w_pos w) (w_tmp w) (w_trace w)
                    (w_log w ++ [mkLog lvl event detail])).

Definition fault (env : Env) (p : FaultPoint) : M unit :=
  match env_fault env p with
  | Some e => raise e
  | None => ret tt
  end.

(** [await uploaded_file.seek(pos)] *)
Definition upload_seek (pos : nat) : M unit :=
  (fun w => (Ok tt, set_pos pos w)) ;; emit (EvUploadSeek pos).

(** What a [read()] of the upload's file object returns at position [pos]. *)
Definition rest_of (up : UploadFile) (pos : nat) : bytes :=
  drop pos (content up).

(** [file.read()] on the upload's file object: everything from the current
    position on; the position moves to the end. *)
Definition spooled_read (up : UploadFile) : M bytes :=
  fun w => (Ok (rest_of up (w_pos w)),
            set_pos (Nat.max (w_pos w) (length (content up))) w).

(** [await uploaded_file.read()] *)
Definition upload_read (env : Env) (up : UploadFile) : M bytes :=
  fault env AtUploadRead ;;
  data <- spooled_read up ;;
  emit (EvUploadRead data) ;;
  ret data.

Definition tmp_path (random suffix : string) : string :=
  "/tmp/tmp" ++ random ++ suffix.

(** [tempfile.NamedTemporaryFile(delete=False, suffix=suffix)]: an empty
    file under a name that did not exist; the result is its [.name]. The
    library's retries on a name collision are folded into one draw. *)
Definition NamedTemporaryFile (env : Env) (suffix : string) : M string :=
  fun w =>
    match env_tmp_name env (w_tmp w) with
    | None =>
        (Raise (PyException "OSError" "No usable temporary file name found"),
         set_tmp (S (w_tmp w)) w)
    | Some r =>
        let p := tmp_path r suffix in
        match w_fs w !! p with
        | Some _ =>
            (Raise (PyException "FileExistsError"
                                "No usable temporary file name found"),
             set_tmp (S (w_tmp w)) w)
        | None =>
            (Ok p,
             mkWorld (<[p := []]> (w_fs w)) (w_pos w) (S (w_tmp w))
                     (w_trace w ++ [EvTmpCreate p]) (w_log w))
        end
    end.

(** [handle.write(data)] on an open temporary file: the data lands in the
    file behind the handle; a handle never creates a path. *)
Definition file_write (env : Env) (path : string) (data : bytes) : M unit :=
  fault env AtTempWrite ;;
  (fun w => (Ok tt,
             match w_fs w !! path with
             | Some old => set_fs (<[path := (old ++ data)%list]> (w_fs w)) w
             | None => w
             end)) ;;
  emit (EvFileWrite path data).

(** [handle.flush()] *)
Definition file_flush (env : Env) (path : string) : M unit :=
  fault env AtTempFlush.

(** [ffmpeg.input(i).output(o, acodec="mp3", audio_bitrate="128k")
       .overwrite_output().run(capture_stdout=True, capture_stderr=True)] *)
Definition ffmpeg_run (env : Env) (input output : string) : M unit :=
  emit (EvFfmpeg input output) ;;
  fun w =>
    match w_fs w !! input with
    | None =>
        (Raise (ffmpeg_Error (Some "No such file or directory")), w)
    | Some data =>
        match env_ffmpeg env data with
        | FfmpegDone out => (Ok tt, set_fs (<[output := out]> (w_fs w)) w)
        | FfmpegFailed stderr None => (Raise (ffmpeg_Error stderr), w)
        | FfmpegFailed stderr (Some part) =>
            (Raise (ffmpeg_Error stderr),
             set_fs (<[output := part]> (w_fs w)) w)
        | FfmpegNotRun e => (Raise e, w)
        end
    end.

(** [with open(path, "rb") as f: f.read()] *)
Definition open_read (env : Env) (path : string) : M bytes :=
  fault env AtOutputOpen ;;
  fun w =>
    match w_fs w !! path with
    | None => (Raise (PyException "FileNotFoundError" path), w)
    | Some data =>
        (fault env AtOutputRead ;;
         emit (EvFileRead path data) ;;
         ret data) w
    end.

(** [os.unlink(path)] *)
Definition os_unlink (path : string) : M unit :=
  fun w =>
    match w_fs w !! path with
    | None => (Raise (PyException "FileNotFoundError" path), w)
    | Some _ => emit (EvUnlink path) (set_fs (delete path (w_fs w)) w)
    end.

(** Reading a stream to its end from where it stands, as the HTTP client
    does with the file object it is given. *)
Definition stream_read (up : UploadFile) (s : BinaryIO) : M bytes :=
  match s with
  | UploadedFile_file => spooled_read up
  | BytesIO data => ret data
  end.

(** [client.audio.transcriptions.create(model=model,
       file=(filename, audio_stream), response_format="text")] *)
Definition transcriptions_create (env : Env) (up : UploadFile)
    (model file_name : string) (audio_stream : BinaryIO) : M string :=
  payload <- stream_read up audio_stream ;;
  emit (EvOpenAI model file_name payload) ;;
  match env_openai env model file_name payload with
  | Ok text => ret text
  | Raise e => raise e
  end.

(** ** Ports ([app/ports.py]) *)

Record AudioExtractionService : Type := mkAudioExtractionService {
  extract_audio_stream : UploadFile -> M (BinaryIO * string)
}.

Record TranscriptionService : Type := mkTranscriptionService {
  transcribe_from_upload : UploadFile -> string -> M string
}.

(** ** [FFmpegAudioExtractionAdapter] *)

Module FFmpegAudioExtractionAdapter.

Definition supported_extensions : list string :=
  [".mp3"; ".wav"; ".m4a"; ".flac"; ".ogg"].

(** [x in [...]] on strings *)
Definition py_in (x : string) (l : list string) : bool :=
  existsb (String.eqb x) l.

(** Line 33: [Path(uploaded_file.filename or "").suffix.lower()] *)
Definition file_extension (uploaded_file : UploadFile) : string :=
  PyStr.lower (PurePath.suffix (PyStr.or_default (filename uploaded_file) "")).

(** Stderr as logged at line 84. *)
Definition stderr_output (e : Exc) : string :=
  match e with
  | ffmpeg_Error (Some (String c r)) => String c r
  | _ => "No stderr available"
  end.

(** Lines 64-100: the body of the [try]. *)
Definition transcode_body (env : Env) (uploaded_file : UploadFile)
    (input_temp output_temp : string) : M (BinaryIO * string) :=
  log INFO "Creando archivos temporales para extracción" None ;;
  content <- upload_read env uploaded_file ;;
  file_write env input_temp content ;;
  file_flush env input_temp ;;
  log INFO "Archivo temporal de entrada creado" None ;;
  log INFO "Ejecutando FFmpeg para extracción de audio" None ;;
  try_except_if is_ffmpeg_Error
    (ffmpeg_run env input_temp output_temp)
    (fun e =>
       log ERROR "FFmpeg falló con error específico"
           (Some (stderr_output e)) ;;
       raise e) ;;
  audio_content <- open_read env output_temp ;;
  log INFO "Audio extraído exitosamente" None ;;
  let audio_stream := BytesIO audio_content in
  let audio_filename :=
    PurePath.stem (PyStr.or_default (filename uploaded_file) "audio")
    ++ ".mp3" in
  log INFO "Stream de audio creado" None ;;
  ret (audio_stream, audio_filename).

(** Lines 63-106: the [try] with its [except Exception] clause, which
    logs and re-raises. *)
Definition guarded_body (env : Env) (uploaded_file : UploadFile)
    (input_temp output_temp : string) : M (BinaryIO * string) :=
  try_except
    (transcode_body env uploaded_file input_temp output_temp)
    (fun e =>
       log ERROR "Error durante extracción de audio con FFmpeg"
           (Some (exc_str e)) ;;
       raise e).

(** Lines 108-113: the [finally] block. *)
Definition cleanup (input_temp output_temp : string) : M unit :=
  log DEBUG "Limpiando archivos temporales" None ;;
  os_unlink input_temp ;;
  os_unlink output_temp ;;
  log DEBUG "Archivos temporales eliminados exitosamente" None.

(** Lines 56-113. *)
Definition _extract_audio_with_ffmpeg (env : Env)
    (uploaded_file : UploadFile) : M (BinaryIO * string) :=
  log INFO "Iniciando extracción de audio con FFmpeg" None ;;
  input_temp <- NamedTemporaryFile env
    (PurePath.suffix (PyStr.or_default (filename uploaded_file) "")) ;;
  output_temp <- NamedTemporaryFile env ".mp3" ;;
  try_finally
    (guarded_body env uploaded_file input_temp output_temp)
    (cleanup input_temp output_temp).

(** Lines 23-54. *)
Definition extract_audio_stream (env : Env) (uploaded_file : UploadFile)
  : M (BinaryIO * string) :=
  let file_extension := file_extension uploaded_file in
  log INFO "Analizando archivo para extracción de audio" None ;;
  if py_in file_extension supported_extensions then
    log INFO
        "Archivo ya está en formato de audio soportado, usando directamente"
        None ;;
    upload_seek 0 ;;
    ret (UploadedFile_file,
         PyStr.or_default (filename uploaded_file) "audio")
  else
    log INFO "Archivo requiere extracción de audio" None ;;
    _extract_audio_with_ffmpeg env uploaded_file.

(** The adapter behind its port; [__init__] only logs. *)
Definition new (env : Env) : AudioExtractionService :=
  mkAudioExtractionService (extract_audio_stream env).

End FFmpegAudioExtractionAdapter.

(** ** [OpenAITranscriptionAdapter] *)

Module OpenAITranscriptionAdapter.

(** Lines 26-66; [_audio_extraction_service] is the injected service or
    [None]. *)
Definition transcribe_from_upload (env : Env)
    (_audio_extraction_service : option AudioExtractionService)
    (uploaded_file : UploadFile) (model : string) : M string :=
  log INFO "Iniciando transcripción con OpenAI" None ;;
  try_except
    (r <- match _audio_extraction_service with
          | Some service =>
              log INFO "Extrayendo audio del archivo" None ;;
              r <- extract_audio_stream service uploaded_file ;;
              log INFO "Audio extraído exitosamente" None ;;
              ret r
          | None =>
              log INFO "Usando archivo directamente sin extracción" None ;;
              upload_seek 0 ;;
              ret (UploadedFile_file,
                   PyStr.or_default (filename uploaded_file) "audio")
          end ;;
     let '(audio_stream, filename) := r in
     log INFO "Enviando archivo a OpenAI para transcripción" None ;;
     transcription <-
       transcriptions_create env uploaded_file model filename audio_stream ;;
     log INFO "Transcripción de OpenAI completada" None ;;
     ret transcription)
    (fun e =>
       log ERROR "Error en transcripción de OpenAI" (Some (exc_str e)) ;;
       raise e).

Definition new (env : Env)
    (audio_extraction_service : option AudioExtractionService)
  : TranscriptionService :=
  mkTranscriptionService
    (transcribe_from_upload env audio_extraction_service).

End OpenAITranscriptionAdapter.

(** ** [ServiceManager] ([app/service/manager.py]) *)

Module ServiceManager.

Record t : Type := new { _transcription_service : TranscriptionService }.

Definition transcribe_media (self : t) (uploaded_file : UploadFile)
    (model : string) : M string :=
  log INFO "Iniciando transcripción de archivo" None ;;
  result <- transcribe_from_upload (_transcription_service self)
                                   uploaded_file model ;;
  log INFO "Transcripción completada exitosamente" None ;;
  ret result.

End ServiceManager.

(** ** DTOs ([app/entrypoints/dtos.py]) and JSON bodies *)

Inductive JValue : Type :=
| JStr (s : string)
| JBool (b : bool).

Definition JObject : Type := list (string * JValue).

Module dtos.

Record TranscriptionResponse : Type := mkTranscriptionResponse {
  transcription : string;
  tr_success : bool
}.

(** [TranscriptionResponse(transcription=t)]: [success] defaults to
    [True]. *)
Definition TranscriptionResponse_of (t : string) : TranscriptionResponse :=
  mkTranscriptionResponse t true.

Record ErrorResponse : Type := mkErrorResponse {
  er_success : bool;
  error : string
}.

(** [ErrorResponse(error=msg)]: [success] defaults to [False]. *)
Definition ErrorResponse_of (msg : string) : ErrorResponse :=
  mkErrorResponse false msg.

(** [model_dump()], fields in declaration order. *)
Definition TranscriptionResponse_dump (r : TranscriptionResponse) : JObject :=
  [("transcription", JStr (transcription r));
   ("success", JBool (tr_success r))].

Definition ErrorResponse_dump (r : ErrorResponse) : JObject :=
  [("success", JBool (er_success r)); ("error", JStr (error r))].

End dtos.

(** ** The HTTP entry points ([app/entrypoints/fastapi_app.py]) *)

(** What the handler of [POST /transcribe] hands back to the framework. *)
Inductive TranscribeReturn : Type :=
| ReturnTuple (body : JObject) (code : Z)
    (* the Python pair [(dict, int)] of line 63 *)
| ReturnModel (r : dtos.TranscriptionResponse)
| ReturnJSONResponse (status_code : Z) (content : JObject).

Inductive HttpBody : Type :=
| JsonBody (o : JObject)
| TextBody (s : string).

Record HttpResponse : Type := mkHttpResponse {
  status : Z;
  body : HttpBody
}.

Module fastapi_app.

Definition default_model : string := "whisper-1".

(** Line 61: [not file.content_type or
              not file.content_type.startswith(("audio/", "video/"))] *)
Definition rejected_content_type (ct : option string) : bool :=
  negb (PyStr.truthy ct)
  || negb (PyStr.startswith_any (PyStr.or_default ct "")
                                ["audio/"; "video/"]).

(** Lines 40-80. [model] is the form field as bound by the framework:
    [None] when the request carries none, and then the default of the
    signature applies. *)
Definition transcribe_media (service_manager : ServiceManager.t)
    (file : UploadFile) (model : option string) : M TranscribeReturn :=
  let model := default default_model model in
  log INFO "Recibida solicitud de transcripción" None ;;
  if rejected_content_type (content_type file) then
    log WARNING "Archivo rechazado por tipo de contenido inválido" None ;;
    ret (ReturnTuple
           [("msg", JStr "El archivo debe ser de tipo audio o video")] 400)
  else
    try_except
      (transcription <-
         ServiceManager.transcribe_media service_manager file model ;;
       log INFO "Solicitud de transcripción completada exitosamente" None ;;
       ret (ReturnModel (dtos.TranscriptionResponse_of transcription)))
      (fun e =>
         log ERROR "Error procesando solicitud de transcripción"
             (Some (exc_str e)) ;;
         ret (ReturnJSONResponse 500
                (dtos.ErrorResponse_dump
                   (dtos.ErrorResponse_of "Error interno del servidor")))).

(** Lines 82-86. *)
Definition health_check : M JObject :=
  log DEBUG "Health check solicitado" None ;;
  ret [("status", JStr "healthy")].

(** How the framework answers for a route whose [response_model] is
    [TranscriptionResponse]: a [Response] object goes out as it is; a
    model instance is validated and serialised with status 200; a value
    that does not validate against the response model (the pair of line
    63 is neither a mapping nor a model) is a server error. *)
Definition respond_transcribe (r : TranscribeReturn) : HttpResponse :=
  match r with
  | ReturnJSONResponse status_code content =>
      mkHttpResponse status_code (JsonBody content)
  | ReturnModel m =>
      mkHttpResponse 200 (JsonBody (dtos.TranscriptionResponse_dump m))
  | ReturnTuple _ _ =>
      mkHttpResponse 500 (TextBody "Internal Server Error")
  end.

(** A route returning [dict[str, str]]: status 200, the dict as JSON. *)
Definition respond_dict (d : JObject) : HttpResponse :=
  mkHttpResponse 200 (JsonBody d).

(** An exception leaving a handler is answered by the server's generic
    error page. *)
Definition respond {A} (render : A -> HttpResponse) (r : Result A)
  : HttpResponse :=
  match r with
  | Ok a => render a
  | Raise _ => mkHttpResponse 500 (TextBody "Internal Server Error")
  end.

(** The two routes registered by [create_app]. *)
Record FastAPI : Type := mkApp {
  post_transcribe : UploadFile -> option string -> World -> HttpResponse * World;
  get_health : World -> HttpResponse * World
}.

Definition serve {A} (render : A -> HttpResponse) (handler : M A)
  : World -> HttpResponse * World :=
  fun w => let '(r, w') := handler w in (respond render r, w').

(** Lines 13-89. *)
Definition create_app (service_manager : ServiceManager.t) : M FastAPI :=
  log INFO "Creando aplicación FastAPI" None ;;
  log INFO "Aplicación FastAPI creada exitosamente" None ;;
  let app :=
    mkApp (fun file model =>
             serve respond_transcribe
                   (transcribe_media service_manager file model))
          (serve respond_dict health_check) in
  log INFO "Configuración de endpoints completada" None ;;
  ret app.

End fastapi_app.

(** ** Wiring ([app/bootstrap.py]) *)

Module bootstrap.

(** [openai_api_key] is the value of [OPENAI_API_KEY] after [load_dotenv]. *)
Definition bootstrap_app (env : Env) (openai_api_key : option string)
  : M fastapi_app.FastAPI :=
  log INFO "Iniciando bootstrap de la aplicación" None ;;
  log INFO "Sistema de logging configurado" None ;;
  log INFO "Variables de entorno cargadas" None ;;
  if negb (PyStr.truthy openai_api_key) then
    log ERROR
        "OPENAI_API_KEY no está configurada en las variables de entorno"
        None ;;
    raise (PyException
             "ValueError"
             "OPENAI_API_KEY no está configurada en las variables de entorno")
  else
    log INFO "API key de OpenAI configurada correctamente" None ;;
    log INFO "Creando adapter de extracción de audio" None ;;
    let audio_extraction_adapter := FFmpegAudioExtractionAdapter.new env in
    log INFO "FFmpeg audio extraction adapter inicializado" None ;;
    log INFO "Creando adapter de transcripción OpenAI" None ;;
    let transcription_adapter :=
      OpenAITranscriptionAdapter.new env (Some audio_extraction_adapter) in
    log INFO "OpenAI adapter inicializado" None ;;
    log INFO "Creando service manager" None ;;
    let service_manager := ServiceManager.new transcription_adapter in
    log INFO "ServiceManager inicializado correctamente" None ;;
    log INFO "Creando aplicación FastAPI" None ;;
    app <- fastapi_app.create_app service_manager ;;
    log INFO "Bootstrap completado exitosamente" None ;;
    ret app.

(** The service manager that [bootstrap_app] builds. *)
Definition wired_service_manager (env : Env) : ServiceManager.t :=
  ServiceManager.new
    (OpenAITranscriptionAdapter.new
       env (Some (FFmpegAudioExtractionAdapter.new env))).

End bootstrap.

(** ** The Media Prober: the decision of lines 33 and 43 *)

Inductive Classification : Type := AlreadySupported | NeedsTranscoding.

Definition classify_extension (file_extension : string) : Classification :=
  if FFmpegAudioExtractionAdapter.py_in
       file_extension FFmpegAudioExtractionAdapter.supported_extensions
  then AlreadySupported
  else NeedsTranscoding.

Definition media_prober (uploaded_file : UploadFile) : Classification :=
  classify_extension (FFmpegAudioExtractionAdapter.file_extension uploaded_file).

(** ** The specification's vocabulary *)

Module Spec.

(** Two characters that are the same letter up to case. *)
Definition same_letter (a b : ascii) : bool :=
  Ascii.eqb a b
  || (PyStr.is_upper a && (PyStr.code a + 32 =? PyStr.code b)%N)
  || (PyStr.is_upper b && (PyStr.code b + 32 =? PyStr.code a)%N).

(** Case-insensitive comparison of two strings. *)
Fixpoint eq_ci (s t : string) : bool :=
  match s, t with
  | EmptyString, EmptyString => true
  | String a s', String b t' => same_letter a b && eq_ci s' t'
  | _, _ => false
  end.

(** "Its extension, compared case-insensitively, is one of .mp3, .wav,
    .m4a, .flac, .ogg". *)
Definition extension_supported (extension : string) : Prop :=
  exists x, In x [".mp3"; ".wav"; ".m4a"; ".flac"; ".ogg"]
            /\ eq_ci extension x = true.

(** "The declared content type is absent or does not begin with audio/
    or video/". *)
Definition not_media_type (ct : option string) : Prop :=
  match ct with
  | None => True
  | Some t => String.prefix "audio/" t = false
              /\ String.prefix "video/" t = false
  end.

(** "Filename = (original filename stem) + .mp3", read literally: the
    stem of the name the upload came with. *)
Definition stem_plus_mp3 (uploaded_file : UploadFile) : string :=
  PurePath.stem (default "" (filename uploaded_file)) ++ ".mp3".

(** The body of the 500 answer. *)
Definition generic_error_body : JObject :=
  [("success", JBool false); ("error", JStr "Error interno del servidor")].

End Spec.

(** ** Observing a run *)

(** The events added to the trace between two worlds. *)
Definition new_events (w w' : World) : list Event :=
  drop (length (w_trace w)) (w_trace w').

(** The events of running [m] from [w]. *)
Definition events_of {A} (m : M A) (w : World) : list Event :=
  new_events w (snd (m w)).

(** The log records written by running [m] from [w]. *)
Definition logged {A} (m : M A) (w : World) : list LogRecord :=
  drop (length (w_log w)) (w_log (snd (m w))).

(** The temporary files created, in order. *)
Fixpoint created (evs : list Event) : list string :=
  match evs with
  | [] => []
  | EvTmpCreate p :: r => p :: created r
  | _ :: r => created r
  end.

(** The calls to the remote API: model, file name, payload. *)
Fixpoint openai_calls (evs : list Event) : list (string * string * bytes) :=
  match evs with
  | [] => []
  | EvOpenAI m f d :: r => (m, f, d) :: openai_calls r
  | _ :: r => openai_calls r
  end.

Definition is_creation (ev : Event) : bool :=
  match ev with EvTmpCreate _ => true | _ => false end.

Definition is_openai_call (ev : Event) : bool :=
  match ev with EvOpenAI _ _ _ => true | _ => false end.

(** Events of the transcoding machinery: temporary files and the tool. *)
Definition is_transcoding_event (ev : Event) : bool :=
  match ev with
  | EvTmpCreate _ | EvFileWrite _ _ | EvFfmpeg _ _ | EvFileRead _ _
  | EvUnlink _ => true
  | _ => false
  end.

(** The trace grows by events satisfying [P] only. *)
Definition grows_by (P : Event -> bool) (w w' : World) : Prop :=
  exists evs, w_trace w' = (w_trace w ++ evs)%list /\ forallb P evs = true.

(** No file disappears. *)
Definition files_kept (w w' : World) : Prop :=
  forall p, is_Some (w_fs w !! p) -> is_Some (w_fs w' !! p).

(** The two worlds differ in the log at most. *)
Definition log_only (w w' : World) : Prop :=
  w_fs w' = w_fs w /\ w_pos w' = w_pos w /\ w_tmp w' = w_tmp w
  /\ w_trace w' = w_trace w.

(** Every run of [m] relates the world before to the world after by [R]. *)
Definition preserves {A} (R : World -> World -> Prop) (m : M A) : Prop :=
  forall w, R w (snd (m w)).

(** ** Sample requests and environments *)

Module Sample.

Definition w0 : World := mkWorld ∅ 0 0 [] [].

Definition names (n : nat) : option string :=
  Some (if Nat.eqb n 0 then "a" else "b").

(** Every external operation succeeds. *)
Definition env_ok : Env :=
  mkEnv names (fun _ => None)
        (fun d => FfmpegDone (d ++ [Byte.x4d])%list)
        (fun _ _ _ => Ok "hola").

(** The external tool exits with an error. *)
Definition env_ffmpeg_fails : Env :=
  mkEnv names (fun _ => None)
        (fun _ => FfmpegFailed (Some "Invalid data found") None)
        (fun _ _ _ => Ok "hola").

(** The remote API refuses the call. *)
Definition env_openai_fails : Env :=
  mkEnv names (fun _ => None)
        (fun d => FfmpegDone d)
        (fun _ _ _ => Raise (PyException "AuthenticationError"
                                         "Incorrect API key provided")).

(** Reading the upload raises. *)
Definition env_read_fails : Env :=
  mkEnv names
        (fun p => match p with
                  | AtUploadRead =>
                      Some (PyException "OSError" "Input/output error")
                  | _ => None
                  end)
        (fun d => FfmpegDone d)
        (fun _ _ _ => Ok "hola").

(** Only one temporary file can be created. *)
Definition env_one_name : Env :=
  mkEnv (fun n => if Nat.eqb n 0 then Some "a" else None) (fun _ => None)
        (fun d => FfmpegDone d)
        (fun _ _ _ => Ok "hola").

Definition data : bytes := [Byte.x01; Byte.x02].

Definition clip : UploadFile :=
  mkUpload (Some "clip.mp4") (Some "video/mp4") (Some 2) data.
Definition voice : UploadFile :=
  mkUpload (Some "voice.mp3") (Some "audio/mpeg") (Some 2) data.
Definition pdf : UploadFile :=
  mkUpload (Some "doc.pdf") (Some "application/pdf") (Some 2) data.
Definition unnamed : UploadFile :=
  mkUpload None (Some "audio/mpeg") (Some 2) data.
Definition empty_name : UploadFile :=
  mkUpload (Some "") (Some "video/mp4") (Some 2) data.

End Sample.

(** ** The pipeline as assembled *)

(** The extraction service given to the OpenAI adapter: the FFmpeg adapter,
    as [bootstrap_app] does, or none. *)
Definition extraction_service (env : Env) (with_extraction : bool)
  : option AudioExtractionService :=
  if with_extraction then Some (FFmpegAudioExtractionAdapter.new env)
  else None.

Definition service_manager (env : Env) (with_extraction : bool)
  : ServiceManager.t :=
  ServiceManager.new
    (OpenAITranscriptionAdapter.new env (extraction_service env with_extraction)).

(** Every call of the remote API among the events names [model]. *)
Definition uses_model (model : string) (ev : Event) : bool :=
  match ev with
  | EvOpenAI m _ _ => String.eqb m model
  | _ => true
  end.

(** The model named by each call of the remote API. *)
Definition models_called (evs : list Event) : list string :=
  List.map (fun call => fst (fst call)) (openai_calls evs).

(** ** Logging configuration ([app/config/logger.py]) *)

Module logger.

(** The stages of the [structlog] chain set up by [configure_logging]. *)
Inductive Processor : Type :=
| add_log_level
| add_logger_name
| TimeStamper (fmt : string)
| StackInfoRenderer
| format_exc_info
| ConsoleRenderer
| JSONRenderer.

Record LoggingConfig : Type := mkLoggingConfig {
  processors : list Processor;
  basic_level : LogLevel;                      (* [logging.basicConfig] *)
  logger_levels : list (string * LogLevel)     (* [getLogger(n).setLevel] *)
}.

(** Lines 57-59: [os.getenv("ENVIRONMENT", "development").lower()
    == "development"]; the argument is the value of [ENVIRONMENT], [None]
    when the variable is not set. *)
Definition _is_development (ENVIRONMENT : option string) : bool :=
  String.eqb (PyStr.lower (default "development" ENVIRONMENT)) "development".

(** Lines 9-41. *)
Definition configure_logging (ENVIRONMENT : option string) : LoggingConfig :=
  mkLoggingConfig
    [add_log_level; add_logger_name; TimeStamper "iso"; StackInfoRenderer;
     format_exc_info;
     if _is_development ENVIRONMENT then ConsoleRenderer else JSONRenderer]
    INFO
    [("uvicorn.access", WARNING); ("openai", WARNING); ("ffmpeg", WARNING)].

End logger.

(** ** More ways to observe a run *)

Definition is_tool_run (ev : Event) : bool :=
  match ev with EvFfmpeg _ _ => true | _ => false end.

(** The events of the [try] body of the transcoding path when every step
    goes through: the upload is read, its bytes are written to the input
    file, the tool runs, the output file is read. *)
Definition transcoding_steps (input_temp output_temp : string)
    (content audio_content : bytes) : list Event :=
  [EvUploadRead content; EvFileWrite input_temp content;
   EvFfmpeg input_temp output_temp; EvFileRead output_temp audio_content].

(** The files other than the two named ones are the same. *)
Definition same_outside (input_temp output_temp : string) (w w' : World)
  : Prop :=
  forall p, p <> input_temp -> p <> output_temp ->
            w_fs w' !! p = w_fs w !! p.

(** What the remote call sends for a stream, in a given world. *)
Definition payload_of (up : UploadFile) (s : BinaryIO) (w : World) : bytes :=
  match s with
  | UploadedFile_file => rest_of up (w_pos w)
  | BytesIO data => data
  end.

(** The remote call that follows an extraction, if it returned. *)
Definition call_after (up : UploadFile) (model : string)
    (r : Result (BinaryIO * string)) (w : World) : list Event :=
  match r with
  | Ok (audio_stream, file_name) =>
      [EvOpenAI model file_name (payload_of up audio_stream w)]
  | Raise _ => []
  end.

(** ** Checking characters exhaustively *)

Definition all_ascii : list ascii := List.map ascii_of_nat (seq 0 256).

(** For a [b] that [lower_char] leaves alone, lowering [a] gives [b]
    exactly when [a] and [b] are the same letter. *)
Definition lower_char_agrees (a b : ascii) : bool :=
  implb (Ascii.eqb (PyStr.lower_char b) b)
        (Bool.eqb (Ascii.eqb (PyStr.lower_char a) b) (Spec.same_letter a b)).

(** * Properties *)

(** ** Strings and paths *)

Example suffix_clip : PurePath.suffix "clip.mp4" = ".mp4".
Proof. reflexivity. Qed.

Example suffix_upper : PyStr.lower (PurePath.suffix "dir/Voice.MP3") = ".mp3".
Proof. reflexivity. Qed.

Example suffix_hidden : PurePath.suffix ".mp3" = "".
Proof. reflexivity. Qed.

Example suffix_trailing_dot : PurePath.suffix "a.mp3." = "".
Proof. reflexivity. Qed.

Example suffix_of_directory : PurePath.suffix "a.mp3/track" = "".
Proof. reflexivity. Qed.

Example suffix_empty : PurePath.suffix "" = "".
Proof. reflexivity. Qed.

Example stem_clip : PurePath.stem "clip.mp4" = "clip".
Proof. reflexivity. Qed.

Example stem_two_dots : PurePath.stem "/tmp/a.tar.gz" = "a.tar".
Proof. reflexivity. Qed.

Example stem_audio : PurePath.stem "audio" = "audio".
Proof. reflexivity. Qed.

Lemma slice_to_from (i : nat) (s : string) :
  PyStr.slice_to i s ++ PyStr.slice_from i s = s.
Proof.
  revert s. induction i as [|i IH]; intros [|c r]; try reflexivity.
  change (String c (PyStr.slice_to i r ++ PyStr.slice_from i r) = String c r).
  f_equal. apply IH.
Qed.

(** A name is its stem followed by its suffix. *)
Lemma stem_suffix (s : string) :
  PurePath.stem s ++ PurePath.suffix s = PurePath.name s.
Proof.
  unfold PurePath.stem, PurePath.suffix.
  destruct (_ && _)%bool.
  - apply slice_to_from.
  - generalize (PurePath.name s). intros n.
    induction n as [|c n IH]; [reflexivity|].
    change (String c (n ++ "") = String c n). f_equal. exact IH.
Qed.

Lemma in_all_ascii (a : ascii) : In a all_ascii.
Proof.
  unfold all_ascii. rewrite <- (ascii_nat_embedding a).
  apply in_map, in_seq. pose proof (nat_ascii_bounded a). lia.
Qed.

Lemma lower_char_agrees_all :
  forallb (fun a => forallb (lower_char_agrees a) all_ascii) all_ascii = true.
Proof. vm_compute. reflexivity. Qed.

Lemma lower_char_same_letter (a b : ascii) :
  PyStr.lower_char b = b ->
  (PyStr.lower_char a = b <-> Spec.same_letter a b = true).
Proof.
  intros Hb.
  pose proof lower_char_agrees_all as H.
  rewrite forallb_forall in H. specialize (H a (in_all_ascii a)).
  rewrite forallb_forall in H. specialize (H b (in_all_ascii b)).
  unfold lower_char_agrees in H.
  apply Ascii.eqb_eq in Hb. rewrite Hb in H. simpl in H.
  apply Bool.eqb_prop in H. rewrite <- H. symmetry. apply Ascii.eqb_eq.
Qed.

Lemma lower_eq_ci (s x : string) :
  PyStr.lower x = x ->
  (PyStr.lower s = x <-> Spec.eq_ci s x = true).
Proof.
  revert x. induction s as [|a s IH]; intros [|b x] Hx; simpl in *;
    try (split; congruence).
  injection Hx as Hb Hx'.
  rewrite andb_true_iff, <- (lower_char_same_letter a b Hb), <- (IH x Hx').
  split; [intros H; injection H; auto | intros [-> ->]; reflexivity].
Qed.

Lemma supported_extensions_lower :
  Forall (fun x => PyStr.lower x = x)
         FFmpegAudioExtractionAdapter.supported_extensions.
Proof. repeat constructor. Qed.

(** Membership in the allow-list after lowering is the specification's
    case-insensitive match. *)
Lemma py_in_lower_supported (ext : string) :
  FFmpegAudioExtractionAdapter.py_in
    (PyStr.lower ext) FFmpegAudioExtractionAdapter.supported_extensions = true
  <-> Spec.extension_supported ext.
Proof.
  unfold FFmpegAudioExtractionAdapter.py_in, Spec.extension_supported.
  rewrite existsb_exists.
  pose proof supported_extensions_lower as Hl. rewrite List.Forall_forall in Hl.
  split; intros (x & Hin & Hx); exists x; (split; [exact Hin|]).
  - apply String.eqb_eq in Hx. apply lower_eq_ci; auto.
  - apply String.eqb_eq. apply lower_eq_ci; auto.
Qed.

(** ** The Media Prober *)

Lemma or_default_some_empty (fname : string) :
  PyStr.or_default (Some fname) "" = fname.
Proof. destruct fname; reflexivity. Qed.

Lemma media_prober_supported (uploaded_file : UploadFile) :
  media_prober uploaded_file = AlreadySupported
  <-> Spec.extension_supported
        (PurePath.suffix (PyStr.or_default (filename uploaded_file) "")).
Proof.
  rewrite <- py_in_lower_supported.
  unfold media_prober, classify_extension,
    FFmpegAudioExtractionAdapter.file_extension.
  destruct (FFmpegAudioExtractionAdapter.py_in _ _); split; congruence.
Qed.

(** The adapter branches on the prober's verdict. *)
Lemma extract_audio_stream_by_class (env : Env) (uploaded_file : UploadFile) :
  FFmpegAudioExtractionAdapter.extract_audio_stream env uploaded_file
  = (log INFO "Analizando archivo para extracción de audio" None ;;
     match media_prober uploaded_file with
     | AlreadySupported =>
         log INFO
           "Archivo ya está en formato de audio soportado, usando directamente"
           None ;;
         upload_seek 0 ;;
         ret (UploadedFile_file,
              PyStr.or_default (filename uploaded_file) "audio")
     | NeedsTranscoding =>
         log INFO "Archivo requiere extracción de audio" None ;;
         FFmpegAudioExtractionAdapter._extract_audio_with_ffmpeg
           env uploaded_file
     end).
Proof.
  unfold FFmpegAudioExtractionAdapter.extract_audio_stream, media_prober,
    classify_extension.
  destruct (FFmpegAudioExtractionAdapter.py_in _ _); reflexivity.
Qed.

(** C3. For every filename, the Media Prober answers already-supported
    exactly when the extension of the name, compared without regard to
    case, is one of .mp3, .wav, .m4a, .flac, .ogg, and needs-transcoding
    for every other name, a name without extension included; the answer is
    a function of the filename alone: two uploads with the same name get
    the same answer, whatever their declared content type, size or
    content. *)
Theorem C3_media_prober_by_extension
    (fname : string) (uploaded_file : UploadFile) :
  filename uploaded_file = Some fname ->
  (media_prober uploaded_file = AlreadySupported
   <-> Spec.extension_supported (PurePath.suffix fname))
  /\ (media_prober uploaded_file = NeedsTranscoding
      <-> ~ Spec.extension_supported (PurePath.suffix fname))
  /\ (PurePath.suffix fname = "" ->
      media_prober uploaded_file = NeedsTranscoding)
  /\ (forall other : UploadFile,
         filename other = Some fname ->
         media_prober other = media_prober uploaded_file).
Proof.
  intros Hname.
  pose proof (media_prober_supported uploaded_file) as Hs.
  rewrite Hname, or_default_some_empty in Hs.
  split; [exact Hs|]. split; [|split].
  - split.
    + intros Hn Hsup. apply Hs in Hsup. congruence.
    + intros Hn. destruct (media_prober uploaded_file); [|reflexivity].
      exfalso. apply Hn, Hs. reflexivity.
  - intros Hno. unfold media_prober, classify_extension,
      FFmpegAudioExtractionAdapter.file_extension.
    rewrite Hname, or_default_some_empty, Hno. reflexivity.
  - intros other Ho. unfold media_prober,
      FFmpegAudioExtractionAdapter.file_extension.
    rewrite Ho, Hname. reflexivity.
Qed.

Lemma C3_witness :
  media_prober Sample.voice = AlreadySupported
  /\ media_prober
       (mkUpload (Some "talk.WAV") (Some "text/plain") None []) = AlreadySupported
  /\ media_prober
       (mkUpload (Some "README") (Some "audio/mpeg") None []) = NeedsTranscoding
  /\ media_prober Sample.clip
     = media_prober (mkUpload (Some "clip.mp4") (Some "audio/mpeg") None []).
Proof.
  split; [|split; [|split]].
  - destruct (C3_media_prober_by_extension "voice.mp3" Sample.voice eq_refl)
      as (Hsupported & _).
    apply Hsupported. exists ".mp3". split; [simpl; tauto | reflexivity].
  - destruct (C3_media_prober_by_extension
                "talk.WAV" (mkUpload (Some "talk.WAV") (Some "text/plain") None [])
                eq_refl) as (Hsupported & _).
    apply Hsupported. exists ".wav". split; [simpl; tauto | reflexivity].
  - destruct (C3_media_prober_by_extension
                "README" (mkUpload (Some "README") (Some "audio/mpeg") None [])
                eq_refl) as (_ & _ & Hnone & _).
    apply Hnone. reflexivity.
  - destruct (C3_media_prober_by_extension
                "clip.mp4"
                (mkUpload (Some "clip.mp4") (Some "audio/mpeg") None [])
                eq_refl) as (_ & _ & _ & Hsame).
    apply (Hsame Sample.clip). reflexivity.
Defined.

(** ** Relations kept by every step of a computation *)

Section Preservation.

Context (R : World -> World -> Prop) `{!PreOrder R}.

Lemma preserves_ret {A} (a : A) : preserves R (ret a).
Proof. intros w. simpl. reflexivity. Qed.

Lemma preserves_raise {A} (e : Exc) : preserves R (@raise A e).
Proof. intros w. simpl. reflexivity. Qed.

Lemma preserves_bind {A B} (m : M A) (f : A -> M B) :
  preserves R m -> (forall a, preserves R (f a)) -> preserves R (bind m f).
Proof.
  intros Hm Hf w. unfold bind. specialize (Hm w).
  destruct (m w) as [[a|e] w1]; simpl in *.
  - transitivity w1; [exact Hm | apply Hf].
  - exact Hm.
Qed.

Lemma preserves_try_except {A} (m : M A) (h : Exc -> M A) :
  preserves R m -> (forall e, preserves R (h e)) ->
  preserves R (try_except m h).
Proof.
  intros Hm Hh w. unfold try_except. specialize (Hm w).
  destruct (m w) as [[a|e] w1]; simpl in *.
  - exact Hm.
  - transitivity w1; [exact Hm | apply Hh].
Qed.

Lemma preserves_try_except_if {A} sel (m : M A) (h : Exc -> M A) :
  preserves R m -> (forall e, preserves R (h e)) ->
  preserves R (try_except_if sel m h).
Proof.
  intros Hm Hh. apply preserves_try_except; [exact Hm|].
  intros e. destruct (sel e); [apply Hh | apply preserves_raise].
Qed.

Lemma preserves_try_finally {A} (m : M A) (fin : M unit) :
  preserves R m -> preserves R fin -> preserves R (try_finally m fin).
Proof.
  intros Hm Hf w. unfold try_finally. specialize (Hm w).
  destruct (m w) as [r w1]. specialize (Hf w1).
  destruct (fin w1) as [[u|e] w2]; simpl in *;
    (transitivity w1; [exact Hm | exact Hf]).
Qed.

Lemma preserves_fault (env : Env) (p : FaultPoint) :
  preserves R (fault env p).
Proof.
  unfold fault. destruct (env_fault env p);
    [apply preserves_raise | apply preserves_ret].
Qed.

End Preservation.

#[local] Instance grows_by_preorder (P : Event -> bool) : PreOrder (grows_by P).
Proof.
  split.
  - intros w. exists []. split; [symmetry; apply app_nil_r | reflexivity].
  - intros w1 w2 w3 (e1 & H1 & P1) (e2 & H2 & P2).
    exists (e1 ++ e2)%list. split.
    + rewrite H2, H1. symmetry. apply app_assoc.
    + rewrite forallb_app, P1, P2. reflexivity.
Qed.

#[local] Instance files_kept_preorder : PreOrder files_kept.
Proof.
  split.
  - intros w p H. exact H.
  - intros w1 w2 w3 H1 H2 p H. apply H2, H1, H.
Qed.

(** Steps that leave the trace alone. *)
Lemma grows_by_same_trace (P : Event -> bool) (w w' : World) :
  w_trace w' = w_trace w -> grows_by P w w'.
Proof.
  intros H. exists []. split; [rewrite H; symmetry; apply app_nil_r | reflexivity].
Qed.

(** A step that appends one event. *)
Lemma grows_by_one (P : Event -> bool) (ev : Event) (w w' : World) :
  P ev = true -> w_trace w' = (w_trace w ++ [ev])%list -> grows_by P w w'.
Proof.
  intros HP H. exists [ev]. split; [exact H | simpl; rewrite HP; reflexivity].
Qed.

Lemma files_kept_same_fs (w w' : World) :
  w_fs w' = w_fs w -> files_kept w w'.
Proof. intros H p. rewrite H. auto. Qed.

Lemma files_kept_insert (w w' : World) (path : string) (data : bytes) :
  w_fs w' = <[path := data]> (w_fs w) -> files_kept w w'.
Proof.
  intros H p Hp. rewrite H.
  destruct (decide (path = p)) as [->|Hne].
  - rewrite lookup_insert_eq. eauto.
  - rewrite lookup_insert_ne; auto.
Qed.

(** *** The primitives and the trace *)

Section TraceOfPrimitives.

Variable P : Event -> bool.

Lemma grows_log lvl event detail :
  preserves (grows_by P) (log lvl event detail).
Proof. intros w. apply grows_by_same_trace. reflexivity. Qed.

Lemma grows_emit ev : P ev = true -> preserves (grows_by P) (emit ev).
Proof. intros HP w. apply (grows_by_one P ev); [exact HP | reflexivity]. Qed.

Lemma grows_spooled_read up : preserves (grows_by P) (spooled_read up).
Proof. intros w. apply grows_by_same_trace. reflexivity. Qed.

Lemma grows_upload_seek pos :
  P (EvUploadSeek pos) = true -> preserves (grows_by P) (upload_seek pos).
Proof.
  intros HP w. apply (grows_by_one P (EvUploadSeek pos)); [exact HP|].
  reflexivity.
Qed.

Lemma grows_upload_read env up :
  (forall d, P (EvUploadRead d) = true) ->
  preserves (grows_by P) (upload_read env up).
Proof.
  intros HP. unfold upload_read.
  apply preserves_bind; [typeclasses eauto | apply preserves_fault; typeclasses eauto |].
  intros _. apply preserves_bind; [typeclasses eauto | apply grows_spooled_read |].
  intros d. apply preserves_bind; [typeclasses eauto | apply grows_emit, HP |].
  intros _. apply preserves_ret. typeclasses eauto.
Qed.

Lemma grows_NamedTemporaryFile env suffix :
  (forall p, P (EvTmpCreate p) = true) ->
  preserves (grows_by P) (NamedTemporaryFile env suffix).
Proof.
  intros HP w. unfold NamedTemporaryFile.
  destruct (env_tmp_name env (w_tmp w)) as [r|];
    [destruct (w_fs w !! tmp_path r suffix)|]; simpl.
  - apply grows_by_same_trace. reflexivity.
  - apply (grows_by_one P (EvTmpCreate (tmp_path r suffix))); auto.
  - apply grows_by_same_trace. reflexivity.
Qed.

Lemma grows_file_write env path data :
  P (EvFileWrite path data) = true ->
  preserves (grows_by P) (file_write env path data).
Proof.
  intros HP. unfold file_write.
  apply preserves_bind; [typeclasses eauto | apply preserves_fault; typeclasses eauto |].
  intros _. apply preserves_bind; [typeclasses eauto | | intros _; apply grows_emit, HP].
  intros w. apply grows_by_same_trace. simpl.
  destruct (w_fs w !! path); reflexivity.
Qed.

Lemma grows_ffmpeg_run env input output :
  P (EvFfmpeg input output) = true ->
  preserves (grows_by P) (ffmpeg_run env input output).
Proof.
  intros HP. unfold ffmpeg_run.
  apply preserves_bind; [typeclasses eauto | apply grows_emit, HP |].
  intros _ w. apply grows_by_same_trace.
  destruct (w_fs w !! input) as [d|]; [|reflexivity].
  destruct (env_ffmpeg env d) as [out|stderr [part|]|e]; reflexivity.
Qed.

Lemma grows_open_read env path :
  (forall d, P (EvFileRead path d) = true) ->
  preserves (grows_by P) (open_read env path).
Proof.
  intros HP. unfold open_read.
  apply preserves_bind; [typeclasses eauto | apply preserves_fault; typeclasses eauto |].
  intros _ w. destruct (w_fs w !! path) as [d|].
  - revert w. change (preserves (grows_by P)
      (fault env AtOutputRead ;; emit (EvFileRead path d) ;; ret d)).
    apply preserves_bind; [typeclasses eauto | apply preserves_fault; typeclasses eauto |].
    intros _. apply preserves_bind; [typeclasses eauto | apply grows_emit, HP |].
    intros _. apply preserves_ret. typeclasses eauto.
  - apply grows_by_same_trace. reflexivity.
Qed.

Lemma grows_os_unlink path :
  P (EvUnlink path) = true -> preserves (grows_by P) (os_unlink path).
Proof.
  intros HP w. unfold os_unlink. destruct (w_fs w !! path).
  - apply (grows_by_one P (EvUnlink path)); [exact HP | reflexivity].
  - apply grows_by_same_trace. reflexivity.
Qed.

End TraceOfPrimitives.

(** *** The primitives and the files *)

Lemma kept_log lvl event detail : preserves files_kept (log lvl event detail).
Proof. intros w. apply files_kept_same_fs. reflexivity. Qed.

Lemma kept_emit ev : preserves files_kept (emit ev).
Proof. intros w. apply files_kept_same_fs. reflexivity. Qed.

Lemma kept_upload_read env up : preserves files_kept (upload_read env up).
Proof.
  unfold upload_read.
  apply preserves_bind; [typeclasses eauto | apply preserves_fault; typeclasses eauto |].
  intros _. apply preserves_bind; [typeclasses eauto | |].
  - intros w. apply files_kept_same_fs. reflexivity.
  - intros d. apply preserves_bind; [typeclasses eauto | apply kept_emit |].
    intros _. apply preserves_ret. typeclasses eauto.
Qed.

Lemma kept_file_write env path data :
  preserves files_kept (file_write env path data).
Proof.
  unfold file_write.
  apply preserves_bind; [typeclasses eauto | apply preserves_fault; typeclasses eauto |].
  intros _. apply preserves_bind; [typeclasses eauto | | intros _; apply kept_emit].
  intros w. simpl. destruct (w_fs w !! path) as [old|].
  - apply (files_kept_insert _ _ path (old ++ data)%list). reflexivity.
  - apply files_kept_same_fs. reflexivity.
Qed.

Lemma kept_ffmpeg_run env input output :
  preserves files_kept (ffmpeg_run env input output).
Proof.
  unfold ffmpeg_run.
  apply preserves_bind; [typeclasses eauto | apply kept_emit |].
  intros _ w. destruct (w_fs w !! input) as [d|];
    [|apply files_kept_same_fs; reflexivity].
  destruct (env_ffmpeg env d) as [out|stderr [part|]|e]; simpl.
  - apply (files_kept_insert _ _ output out). reflexivity.
  - apply (files_kept_insert _ _ output part). reflexivity.
  - apply files_kept_same_fs. reflexivity.
  - apply files_kept_same_fs. reflexivity.
Qed.

Lemma kept_open_read env path : preserves files_kept (open_read env path).
Proof.
  unfold open_read.
  apply preserves_bind; [typeclasses eauto | apply preserves_fault; typeclasses eauto |].
  intros _ w. destruct (w_fs w !! path) as [d|].
  - revert w. change (preserves files_kept
      (fault env AtOutputRead ;; emit (EvFileRead path d) ;; ret d)).
    apply preserves_bind; [typeclasses eauto | apply preserves_fault; typeclasses eauto |].
    intros _. apply preserves_bind; [typeclasses eauto | apply kept_emit |].
    intros _. apply preserves_ret. typeclasses eauto.
  - apply files_kept_same_fs. reflexivity.
Qed.

(** *** The transcoding path, step by step *)

Create HintDb pipeline.

#[local] Hint Resolve grows_log grows_emit grows_spooled_read grows_upload_seek
  grows_upload_read grows_NamedTemporaryFile grows_file_write grows_ffmpeg_run
  grows_open_read grows_os_unlink kept_log kept_emit kept_upload_read
  kept_file_write kept_ffmpeg_run kept_open_read : pipeline.

(** One step through the structure of a computation: a primitive is closed
    by its own lemma, a combinator by the matching rule. *)
Ltac pres_step :=
  first [ solve [eauto with pipeline]
        | apply preserves_ret; typeclasses eauto
        | apply preserves_raise; typeclasses eauto
        | apply preserves_fault; typeclasses eauto
        | apply preserves_try_finally; [typeclasses eauto | | ]
        | apply preserves_try_except_if; [typeclasses eauto | | intros ?]
        | apply preserves_try_except; [typeclasses eauto | | intros ?]
        | apply preserves_bind; [typeclasses eauto | | intros ?] ].

Ltac pres := repeat pres_step.

(** The [try] body and its [except] handler delete no file. *)
Lemma kept_guarded_body env up input_temp output_temp :
  preserves files_kept
    (FFmpegAudioExtractionAdapter.guarded_body env up input_temp output_temp).
Proof.
  unfold FFmpegAudioExtractionAdapter.guarded_body,
    FFmpegAudioExtractionAdapter.transcode_body, file_flush.
  pres.
Qed.

Section TraceOfTranscoding.

Variable P : Event -> bool.

(** [P] admits every event that is neither the creation of a temporary
    file nor a call to the remote API. *)
Hypothesis P_inner :
  forall ev, is_creation ev = false -> is_openai_call ev = false ->
             P ev = true.

Lemma grows_guarded_body env up input_temp output_temp :
  preserves (grows_by P)
    (FFmpegAudioExtractionAdapter.guarded_body
       env up input_temp output_temp).
Proof.
  unfold FFmpegAudioExtractionAdapter.guarded_body,
    FFmpegAudioExtractionAdapter.transcode_body, file_flush.
  pres.
Qed.

Lemma grows_cleanup input_temp output_temp :
  preserves (grows_by P)
    (FFmpegAudioExtractionAdapter.cleanup input_temp output_temp).
Proof. unfold FFmpegAudioExtractionAdapter.cleanup. pres. Qed.

End TraceOfTranscoding.

(** *** Creating and removing the temporary files *)

Lemma NamedTemporaryFile_cases (env : Env) (suffix : string) (w : World) :
  (exists e, NamedTemporaryFile env suffix w
             = (Raise e, set_tmp (S (w_tmp w)) w))
  \/ (exists p,
        w_fs w !! p = None
        /\ NamedTemporaryFile env suffix w
           = (Ok p, mkWorld (<[p := []]> (w_fs w)) (w_pos w) (S (w_tmp w))
                            (w_trace w ++ [EvTmpCreate p]) (w_log w))).
Proof.
  unfold NamedTemporaryFile.
  destruct (env_tmp_name env (w_tmp w)) as [r|]; [|left; eauto].
  destruct (w_fs w !! tmp_path r suffix) eqn:E; [left; eauto|].
  right. exists (tmp_path r suffix). auto.
Qed.

(** With both files in place, the [finally] block removes them and does
    not raise. *)
Lemma cleanup_removes (input_temp output_temp : string) (w : World) :
  input_temp <> output_temp ->
  is_Some (w_fs w !! input_temp) ->
  is_Some (w_fs w !! output_temp) ->
  FFmpegAudioExtractionAdapter.cleanup input_temp output_temp w
  = (Ok tt,
     mkWorld (delete output_temp (delete input_temp (w_fs w)))
             (w_pos w) (w_tmp w)
             (w_trace w ++ [EvUnlink input_temp; EvUnlink output_temp])
             (w_log w
              ++ [mkLog DEBUG "Limpiando archivos temporales" None;
                  mkLog DEBUG "Archivos temporales eliminados exitosamente"
                        None])).
Proof.
  intros Hne [di Hi] [do Ho].
  unfold FFmpegAudioExtractionAdapter.cleanup, bind, log, os_unlink, emit.
  simpl. rewrite Hi. simpl.
  rewrite lookup_delete_ne by exact Hne. rewrite Ho. simpl.
  rewrite <- !app_assoc. reflexivity.
Qed.

Lemma created_app (a b : list Event) :
  created (a ++ b) = (created a ++ created b)%list.
Proof.
  induction a as [|ev a IH]; [reflexivity|].
  destruct ev; simpl; rewrite IH; reflexivity.
Qed.

Lemma created_none (evs : list Event) :
  forallb (fun ev => negb (is_creation ev)) evs = true -> created evs = [].
Proof.
  induction evs as [|ev evs IH]; [reflexivity|].
  simpl. intros H. apply andb_true_iff in H as [H1 H2].
  destruct ev; simpl in *; try discriminate; auto.
Qed.

Lemma new_events_app (w w' : World) (evs : list Event) :
  w_trace w' = (w_trace w ++ evs)%list -> new_events w w' = evs.
Proof. intros H. unfold new_events. rewrite H. apply drop_app_length. Qed.

(** Running a sequence when the outcome of its first step is known. *)
Lemma bind_ok {A B} (m : M A) (f : A -> M B) (w w' : World) (a : A) :
  m w = (Ok a, w') -> bind m f w = f a w'.
Proof. intros H. unfold bind. rewrite H. reflexivity. Qed.

Lemma bind_raise {A B} (m : M A) (f : A -> M B) (w w' : World) (e : Exc) :
  m w = (Raise e, w') -> bind m f w = (Raise e, w').
Proof. intros H. unfold bind. rewrite H. reflexivity. Qed.

Lemma bind_log {B} lvl event detail (k : M B) (w : World) :
  (log lvl event detail ;; k) w = k (snd (log lvl event detail w)).
Proof. reflexivity. Qed.

(** The three ways a call of [_extract_audio_with_ffmpeg] can go: no
    temporary file could be created; only the input file could; or both
    were created, the guarded body ran, and the [finally] block removed
    both. *)
Lemma extract_with_ffmpeg_run (env : Env) (up : UploadFile) (w : World) :
  let run := FFmpegAudioExtractionAdapter._extract_audio_with_ffmpeg env up w in
  (exists e, fst run = Raise e
             /\ w_trace (snd run) = w_trace w
             /\ w_fs (snd run) = w_fs w)
  \/ (exists e i, fst run = Raise e
                  /\ w_trace (snd run) = (w_trace w ++ [EvTmpCreate i])%list
                  /\ w_fs (snd run) = <[i := []]> (w_fs w))
  \/ (exists i o w3 w4 r,
         w_fs w !! i = None /\ w_fs w !! o = None /\ i <> o
         /\ w_fs w3 = <[o := []]> (<[i := []]> (w_fs w))
         /\ w_pos w3 = w_pos w
         /\ w_trace w3 = (w_trace w ++ [EvTmpCreate i; EvTmpCreate o])%list
         /\ FFmpegAudioExtractionAdapter.guarded_body env up i o w3 = (r, w4)
         /\ fst run = r
         /\ w_fs (snd run) = delete o (delete i (w_fs w4))
         /\ w_pos (snd run) = w_pos w4
         /\ w_trace (snd run)
            = (w_trace w4 ++ [EvUnlink i; EvUnlink o])%list).
Proof.
  intros run. subst run.
  unfold FFmpegAudioExtractionAdapter._extract_audio_with_ffmpeg.
  set (sfx := PurePath.suffix (PyStr.or_default (filename up) "")).
  rewrite bind_log.
  set (w1 := snd (log INFO "Iniciando extracción de audio con FFmpeg" None w)).
  destruct (NamedTemporaryFile_cases env sfx w1) as [[e He]|(i & Hi & Hci)].
  { rewrite (bind_raise _ _ _ _ _ He). left. exists e. auto. }
  rewrite (bind_ok _ _ _ _ _ Hci).
  set (w2 := mkWorld _ _ _ _ _) in *.
  destruct (NamedTemporaryFile_cases env ".mp3" w2) as [[e He]|(o & Ho & Hco)].
  { rewrite (bind_raise _ _ _ _ _ He). right. left. exists e, i. auto. }
  rewrite (bind_ok _ _ _ _ _ Hco).
  match goal with
  | |- context [try_finally _ _ ?x] => set (w3 := x) in *
  end.
  right. right.
  assert (Hne : i <> o).
  { intros ->. subst w2. simpl in Ho. rewrite lookup_insert_eq in Ho.
    discriminate. }
  assert (Hoo : w_fs w !! o = None).
  { subst w2. simpl in Ho. rewrite lookup_insert_ne in Ho by exact Hne.
    exact Ho. }
  unfold try_finally.
  destruct (FFmpegAudioExtractionAdapter.guarded_body env up i o w3)
    as [r w4] eqn:Hbody.
  pose proof (kept_guarded_body env up i o w3) as Hkept.
  rewrite Hbody in Hkept. simpl in Hkept.
  rewrite cleanup_removes.
  - exists i, o, w3, w4, r. simpl.
    repeat split; auto.
    subst w3 w2 w1. simpl. rewrite <- app_assoc. reflexivity.
  - exact Hne.
  - apply Hkept. subst w3 w2. simpl.
    rewrite lookup_insert_ne by auto. rewrite lookup_insert_eq. eauto.
  - apply Hkept. subst w3. simpl. rewrite lookup_insert_eq. eauto.
Qed.

(** ** Temporary files *)



(** Outside the claim: when the output file cannot be created, the call
    raises before the [try] is entered and the input file stays. *)
Example input_file_stays_when_output_creation_fails :
  fst (FFmpegAudioExtractionAdapter._extract_audio_with_ffmpeg
         Sample.env_one_name Sample.clip Sample.w0)
  = Raise (PyException "OSError" "No usable temporary file name found")
  /\ w_fs (snd (FFmpegAudioExtractionAdapter._extract_audio_with_ffmpeg
                  Sample.env_one_name Sample.clip Sample.w0))
      !! "/tmp/tmpa.mp4" = Some [].
Proof. split; reflexivity. Qed.

(** ** What a successful step tells *)

Lemma bind_ok_inv {A B} (m : M A) (f : A -> M B) (w w' : World) (b : B) :
  bind m f w = (Ok b, w') ->
  exists a w1, m w = (Ok a, w1) /\ f a w1 = (Ok b, w').
Proof.
  unfold bind. destruct (m w) as [[a|e] w1]; [eauto | discriminate].
Qed.

Lemma upload_read_ok env up w d w1 :
  upload_read env up w = (Ok d, w1) ->
  d = rest_of up (w_pos w)
  /\ w_fs w1 = w_fs w
  /\ w_trace w1 = (w_trace w ++ [EvUploadRead d])%list.
Proof.
  unfold upload_read, fault, bind.
  destruct (env_fault env AtUploadRead); simpl; [discriminate|].
  intros [= <- <-]. auto.
Qed.

Lemma file_write_ok env path data w u w1 old :
  file_write env path data w = (Ok u, w1) ->
  w_fs w !! path = Some old ->
  w_fs w1 = <[path := (old ++ data)%list]> (w_fs w)
  /\ w_pos w1 = w_pos w
  /\ w_trace w1 = (w_trace w ++ [EvFileWrite path data])%list.
Proof.
  intros H Hold. unfold file_write, fault, bind, emit, ret in H.
  destruct (env_fault env AtTempWrite); [discriminate|].
  cbv beta iota zeta in H. rewrite Hold in H. injection H as <- <-.
  simpl. auto.
Qed.

Lemma fault_ok env p w u w1 : fault env p w = (Ok u, w1) -> w1 = w.
Proof.
  unfold fault. destruct (env_fault env p); simpl; [discriminate|].
  intros [= <- <-]. reflexivity.
Qed.

Lemma ffmpeg_run_ok env input output w u w1 data :
  ffmpeg_run env input output w = (Ok u, w1) ->
  w_fs w !! input = Some data ->
  exists out,
    env_ffmpeg env data = FfmpegDone out
    /\ w_fs w1 = <[output := out]> (w_fs w)
    /\ w_trace w1 = (w_trace w ++ [EvFfmpeg input output])%list.
Proof.
  unfold ffmpeg_run, bind, emit. simpl. intros H Hin. rewrite Hin in H.
  destruct (env_ffmpeg env data) as [out|stderr [part|]|e];
    try discriminate.
  injection H as <- <-. exists out. auto.
Qed.

Lemma open_read_ok env path w d w1 :
  open_read env path w = (Ok d, w1) ->
  w_fs w !! path = Some d
  /\ w_trace w1 = (w_trace w ++ [EvFileRead path d])%list.
Proof.
  unfold open_read, fault, bind.
  destruct (env_fault env AtOutputOpen); simpl; [discriminate|].
  destruct (w_fs w !! path) as [data|]; [|discriminate].
  destruct (env_fault env AtOutputRead); simpl; [discriminate|].
  intros [= <- <-]. auto.
Qed.

(** A handler that logs and raises again never turns a failure into a
    result. *)
Lemma try_reraise_ok_inv {A} (m : M A) lvl event (detail : Exc -> option string)
    (w w' : World) (a : A) :
  try_except m (fun e => log lvl event (detail e) ;; raise e) w = (Ok a, w') ->
  m w = (Ok a, w').
Proof.
  unfold try_except. destruct (m w) as [[x|e] w1]; [auto | discriminate].
Qed.

Lemma try_if_reraise_ok_inv {A} sel (m : M A) lvl event
    (detail : Exc -> option string) (w w' : World) (a : A) :
  try_except_if sel m (fun e => log lvl event (detail e) ;; raise e) w
  = (Ok a, w') ->
  m w = (Ok a, w').
Proof.
  unfold try_except_if, try_except.
  destruct (m w) as [[x|e] w1]; [auto|]. destruct (sel e); discriminate.
Qed.

(** The guarded body returns a payload only when every step went through:
    the bytes read from the upload were written to the input file, the tool
    turned them into the content of the output file, and that content,
    read back, is the payload. *)
Lemma guarded_body_success env up i o w3 s n w4 :
  FFmpegAudioExtractionAdapter.guarded_body env up i o w3 = (Ok (s, n), w4) ->
  i <> o ->
  w_fs w3 !! i = Some [] ->
  n = PurePath.stem (PyStr.or_default (filename up) "audio") ++ ".mp3"
  /\ exists data,
      s = BytesIO data
      /\ env_ffmpeg env (rest_of up (w_pos w3)) = FfmpegDone data
      /\ w_trace w4
         = (w_trace w3
            ++ [EvUploadRead (rest_of up (w_pos w3));
                EvFileWrite i (rest_of up (w_pos w3));
                EvFfmpeg i o;
                EvFileRead o data])%list.
Proof.
  intros Hrun Hne Hi.
  unfold FFmpegAudioExtractionAdapter.guarded_body in Hrun.
  apply try_reraise_ok_inv with (detail := fun e => Some (exc_str e)) in Hrun.
  unfold FFmpegAudioExtractionAdapter.transcode_body in Hrun.
  rewrite bind_log in Hrun.
  apply bind_ok_inv in Hrun as (c & wa & Hread & Hrun).
  apply upload_read_ok in Hread as (-> & Hfa & Hta). simpl in Hfa, Hta.
  apply bind_ok_inv in Hrun as (u1 & wb & Hwrite & Hrun).
  apply file_write_ok with (old := []) in Hwrite as (Hfb & Hpb & Htb);
    [|rewrite Hfa; exact Hi].
  apply bind_ok_inv in Hrun as (u2 & wc & Hflush & Hrun).
  apply fault_ok in Hflush as ->.
  rewrite !bind_log in Hrun.
  apply bind_ok_inv in Hrun as (u3 & wd & Hff & Hrun).
  apply try_if_reraise_ok_inv
    with (detail := fun e =>
                      Some (FFmpegAudioExtractionAdapter.stderr_output e))
    in Hff.
  apply ffmpeg_run_ok with (data := rest_of up (w_pos w3)) in Hff
    as (out & Hout & Hfd & Htd);
    [|simpl; rewrite Hfb, lookup_insert_eq; reflexivity].
  simpl in Hfd, Htd.
  apply bind_ok_inv in Hrun as (d & we & Hopen & Hrun).
  apply open_read_ok in Hopen as (Hd & Hte).
  rewrite Hfd, lookup_insert_eq in Hd. injection Hd as <-.
  rewrite !bind_log in Hrun. injection Hrun as <- <- <-.
  split; [reflexivity|]. exists out. split; [reflexivity|].
  split; [exact Hout|].
  simpl. rewrite Hte, Htd, Htb, Hta. rewrite <- !app_assoc. reflexivity.
Qed.

(** ** The payload of a successful transcoding *)

Lemma or_default_truthy (x : option string) (d : string) :
  PyStr.truthy x = true -> PyStr.or_default x d = default "" x.
Proof. destruct x as [[|c r]|]; simpl; congruence. Qed.

(** The name given to the payload by a transcoding that returns. *)
Lemma transcoding_payload_name
    (env : Env) (uploaded_file : UploadFile) (w : World)
    (audio_stream : BinaryIO) (audio_filename : string) :
  fst (FFmpegAudioExtractionAdapter._extract_audio_with_ffmpeg
         env uploaded_file w) = Ok (audio_stream, audio_filename) ->
  audio_filename
  = PurePath.stem (PyStr.or_default (filename uploaded_file) "audio") ++ ".mp3".
Proof.
  intros Hok.
  destruct (extract_with_ffmpeg_run env uploaded_file w)
    as [(e & Hr & _)
       |[(e & i & Hr & _)
        |(i & o & w3 & w4 & r & _ & _ & Hne & Hf3 & _ & _ & Hbody & Hr & _)]];
    try congruence.
  rewrite Hok in Hr. subst r.
  apply guarded_body_success in Hbody as (Hn & _);
    [exact Hn | exact Hne |].
  rewrite Hf3, lookup_insert_ne, lookup_insert_eq; auto.
Qed.

(** C5, as the code has it. For every successful transcoding, the name of
    the payload is the stem of the upload's filename, or of the default
    name "audio" when the upload has no filename or an empty one, followed
    by ".mp3"; for an upload with a non-empty filename this is the stem of
    the original filename followed by ".mp3". The bytes of the payload are
    the content read from the output temporary file, the second of the two
    temporary files of the call, which is what the external tool made of
    the bytes read from the upload. *)
Theorem C5_payload_of_successful_transcoding
    (env : Env) (uploaded_file : UploadFile) (w : World)
    (audio_stream : BinaryIO) (audio_filename : string) :
  fst (FFmpegAudioExtractionAdapter._extract_audio_with_ffmpeg
         env uploaded_file w) = Ok (audio_stream, audio_filename) ->
  audio_filename
  = PurePath.stem (PyStr.or_default (filename uploaded_file) "audio") ++ ".mp3"
  /\ (PyStr.truthy (filename uploaded_file) = true ->
      audio_filename = Spec.stem_plus_mp3 uploaded_file)
  /\ exists input_temp output_temp audio_content,
      created (events_of
                 (FFmpegAudioExtractionAdapter._extract_audio_with_ffmpeg
                    env uploaded_file) w)
      = [input_temp; output_temp]
      /\ In (EvFileRead output_temp audio_content)
            (events_of
               (FFmpegAudioExtractionAdapter._extract_audio_with_ffmpeg
                  env uploaded_file) w)
      /\ audio_stream = BytesIO audio_content
      /\ env_ffmpeg env (rest_of uploaded_file (w_pos w))
         = FfmpegDone audio_content.
Proof.
  intros Hok. unfold events_of.
  destruct (extract_with_ffmpeg_run env uploaded_file w)
    as [(e & Hr & _)
       |[(e & i & Hr & _)
        |(i & o & w3 & w4 & r & _ & _ & Hne & Hf3 & Hp3 & Ht3 & Hbody & Hr
          & _ & _ & Ht)]]; try congruence.
  rewrite Hok in Hr. subst r.
  apply guarded_body_success in Hbody as (Hn & data & Hs & Hff & Ht4);
    [|exact Hne|rewrite Hf3, lookup_insert_ne, lookup_insert_eq; auto].
  rewrite Hp3 in Hff, Ht4.
  split; [exact Hn|]. split.
  - intros Htruthy. rewrite Hn. unfold Spec.stem_plus_mp3.
    rewrite (or_default_truthy _ _ Htruthy). reflexivity.
  - exists i, o, data.
    rewrite (new_events_app _ _
               ([EvTmpCreate i; EvTmpCreate o;
                 EvUploadRead (rest_of uploaded_file (w_pos w));
                 EvFileWrite i (rest_of uploaded_file (w_pos w));
                 EvFfmpeg i o; EvFileRead o data;
                 EvUnlink i; EvUnlink o])).
    + repeat split; auto. simpl. tauto.
    + rewrite Ht, Ht4, Ht3. rewrite <- !app_assoc. reflexivity.
Qed.

Lemma C5_witness :
  "clip.mp3"
  = PurePath.stem (PyStr.or_default (filename Sample.clip) "audio") ++ ".mp3"
  /\ (PyStr.truthy (filename Sample.clip) = true ->
      "clip.mp3" = Spec.stem_plus_mp3 Sample.clip)
  /\ exists input_temp output_temp audio_content,
      created (events_of
                 (FFmpegAudioExtractionAdapter._extract_audio_with_ffmpeg
                    Sample.env_ok Sample.clip) Sample.w0)
      = [input_temp; output_temp]
      /\ In (EvFileRead output_temp audio_content)
            (events_of
               (FFmpegAudioExtractionAdapter._extract_audio_with_ffmpeg
                  Sample.env_ok Sample.clip) Sample.w0)
      /\ BytesIO [Byte.x01; Byte.x02; Byte.x4d] = BytesIO audio_content
      /\ env_ffmpeg Sample.env_ok (rest_of Sample.clip (w_pos Sample.w0))
         = FfmpegDone audio_content.
Proof.
  apply (C5_payload_of_successful_transcoding
           Sample.env_ok Sample.clip Sample.w0).
  reflexivity.
Defined.

(** C5 as worded fails for an upload with an empty filename: the
    transcoding succeeds and names the payload "audio.mp3", while the stem
    of the original filename followed by ".mp3" is ".mp3". *)
Lemma C5_counterexample_empty_filename :
  fst (FFmpegAudioExtractionAdapter._extract_audio_with_ffmpeg
         Sample.env_ok Sample.empty_name Sample.w0)
  = Ok (BytesIO [Byte.x01; Byte.x02; Byte.x4d], "audio.mp3")
  /\ Spec.stem_plus_mp3 Sample.empty_name = ".mp3"
  /\ "audio.mp3" <> Spec.stem_plus_mp3 Sample.empty_name.
Proof. split; [reflexivity|]. split; [reflexivity|]. discriminate. Qed.

(** ** The trace of the whole pipeline *)

Lemma grows_transcriptions_create (P : Event -> bool) env up model file_name s :
  (forall payload, P (EvOpenAI model file_name payload) = true) ->
  preserves (grows_by P) (transcriptions_create env up model file_name s).
Proof.
  intros HP. unfold transcriptions_create.
  apply preserves_bind; [typeclasses eauto | |].
  - destruct s; [apply grows_spooled_read | apply preserves_ret; typeclasses eauto].
  - intros payload.
    apply preserves_bind; [typeclasses eauto | apply grows_emit, HP |].
    intros _. destruct (env_openai env model file_name payload);
      [apply preserves_ret | apply preserves_raise]; typeclasses eauto.
Qed.

Section TraceOfExtraction.

Variable P : Event -> bool.

(** [P] admits every event that is not a call to the remote API. *)
Hypothesis P_outer : forall ev, is_openai_call ev = false -> P ev = true.

Lemma grows_extract_with_ffmpeg env up :
  preserves (grows_by P)
    (FFmpegAudioExtractionAdapter._extract_audio_with_ffmpeg env up).
Proof.
  unfold FFmpegAudioExtractionAdapter._extract_audio_with_ffmpeg.
  apply preserves_bind; [typeclasses eauto | apply grows_log |].
  intros _.
  apply preserves_bind;
    [typeclasses eauto | apply grows_NamedTemporaryFile; auto |].
  intros input_temp.
  apply preserves_bind;
    [typeclasses eauto | apply grows_NamedTemporaryFile; auto |].
  intros output_temp.
  apply preserves_try_finally; [typeclasses eauto | |].
  - apply grows_guarded_body. auto.
  - apply grows_cleanup. auto.
Qed.

Lemma grows_extract_audio_stream env up :
  preserves (grows_by P)
    (FFmpegAudioExtractionAdapter.extract_audio_stream env up).
Proof.
  rewrite extract_audio_stream_by_class.
  apply preserves_bind; [typeclasses eauto | apply grows_log |].
  intros _. destruct (media_prober up).
  - pres.
  - apply preserves_bind; [typeclasses eauto | apply grows_log |].
    intros _. apply grows_extract_with_ffmpeg.
Qed.

(** The pipeline as wired, with the FFmpeg adapter or without any
    extraction service. *)
Lemma grows_transcribe_from_upload env (with_extraction : bool) up model :
  (forall file_name payload, P (EvOpenAI model file_name payload) = true) ->
  preserves (grows_by P)
    (OpenAITranscriptionAdapter.transcribe_from_upload
       env (extraction_service env with_extraction) up model).
Proof.
  intros HP. unfold OpenAITranscriptionAdapter.transcribe_from_upload.
  apply preserves_bind; [typeclasses eauto | apply grows_log |].
  intros _. apply preserves_try_except; [typeclasses eauto | | intros e; pres].
  apply preserves_bind; [typeclasses eauto | |].
  - destruct with_extraction; unfold extraction_service.
    + apply preserves_bind; [typeclasses eauto | apply grows_log |].
      intros _. apply preserves_bind; [typeclasses eauto | | intros r; pres].
      apply grows_extract_audio_stream.
    + pres.
  - intros [audio_stream file_name].
    apply preserves_bind; [typeclasses eauto | apply grows_log |].
    intros _. apply preserves_bind; [typeclasses eauto | | intros t; pres].
    apply grows_transcriptions_create. auto.
Qed.

End TraceOfExtraction.

(** ** The direct paths *)

(** An upload that the prober accepts has a non-empty filename. *)
Lemma supported_has_name (up : UploadFile) :
  media_prober up = AlreadySupported ->
  exists fname, filename up = Some fname
                /\ PyStr.or_default (filename up) "audio" = fname.
Proof.
  unfold media_prober, FFmpegAudioExtractionAdapter.file_extension.
  destruct (filename up) as [[|c r]|]; simpl; try discriminate.
  intros _. eauto.
Qed.

(** *** Wrappers that only log *)

Lemma logged_result {A} (m : M A) lvl event detail (w : World) :
  fst ((x <- m ;; log lvl event detail ;; ret x) w) = fst (m w)
  /\ log_only (snd (m w)) (snd ((x <- m ;; log lvl event detail ;; ret x) w)).
Proof.
  unfold bind. destruct (m w) as [[a|e] w1]; simpl; repeat split.
Qed.

Lemma logged_reraise {A} (m : M A) lvl event (detail : Exc -> option string)
    (w : World) :
  fst (try_except m (fun e => log lvl event (detail e) ;; raise e) w)
  = fst (m w)
  /\ log_only (snd (m w))
       (snd (try_except m (fun e => log lvl event (detail e) ;; raise e) w)).
Proof.
  unfold try_except. destruct (m w) as [[a|e] w1]; simpl; repeat split.
Qed.

(** *** The remote call *)

(** What the client reads from the stream it is given. *)
Lemma transcriptions_create_run env up model file_name s w :
  exists w',
    transcriptions_create env up model file_name s w
    = (env_openai env model file_name
         match s with
         | UploadedFile_file => rest_of up (w_pos w)
         | BytesIO data => data
         end,
       w')
    /\ w_fs w' = w_fs w
    /\ w_trace w'
       = (w_trace w
          ++ [EvOpenAI model file_name
                match s with
                | UploadedFile_file => rest_of up (w_pos w)
                | BytesIO data => data
                end])%list.
Proof.
  unfold transcriptions_create, bind, stream_read, spooled_read, emit, ret,
    raise.
  destruct s as [|data].
  - destruct (env_openai env model file_name (rest_of up (w_pos w)));
      eexists; repeat split.
  - destruct (env_openai env model file_name data); eexists; repeat split.
Qed.

(** The branch that hands the upload on as it is: the upload is rewound and
    its own file object and name are the payload. *)
Lemma direct_branch_run env (with_extraction : bool) up w :
  with_extraction = false \/ media_prober up = AlreadySupported ->
  exists w2,
    match extraction_service env with_extraction with
    | Some service =>
        log INFO "Extrayendo audio del archivo" None ;;
        r <- extract_audio_stream service up ;;
        log INFO "Audio extraído exitosamente" None ;;
        ret r
    | None =>
        log INFO "Usando archivo directamente sin extracción" None ;;
        upload_seek 0 ;;
        ret (UploadedFile_file, PyStr.or_default (filename up) "audio")
    end w
    = (Ok (UploadedFile_file, PyStr.or_default (filename up) "audio"), w2)
    /\ w_fs w2 = w_fs w /\ w_pos w2 = 0
    /\ w_trace w2 = (w_trace w ++ [EvUploadSeek 0])%list.
Proof.
  intros [->|Hsup].
  - eexists. repeat split.
  - destruct with_extraction; [|eexists; repeat split].
    unfold extraction_service.
    cbn [extract_audio_stream FFmpegAudioExtractionAdapter.new].
    rewrite extract_audio_stream_by_class, Hsup.
    eexists. repeat split.
Qed.

(** Without extraction service, or with an upload the prober accepts, the
    adapter rewinds the upload and sends its whole content under its own
    name; nothing else happens outside the process. *)
Lemma direct_run env (with_extraction : bool) up model w :
  with_extraction = false \/ media_prober up = AlreadySupported ->
  w_trace (snd (OpenAITranscriptionAdapter.transcribe_from_upload
                  env (extraction_service env with_extraction) up model w))
  = (w_trace w
     ++ [EvUploadSeek 0;
         EvOpenAI model (PyStr.or_default (filename up) "audio") (content up)])
    %list
  /\ w_fs (snd (OpenAITranscriptionAdapter.transcribe_from_upload
                  env (extraction_service env with_extraction) up model w))
     = w_fs w
  /\ fst (OpenAITranscriptionAdapter.transcribe_from_upload
            env (extraction_service env with_extraction) up model w)
     = env_openai env model (PyStr.or_default (filename up) "audio")
                  (content up).
Proof.
  intros Hdirect.
  unfold OpenAITranscriptionAdapter.transcribe_from_upload.
  rewrite bind_log.
  set (w1 := snd (log INFO "Iniciando transcripción con OpenAI" None w)).
  match goal with
  | |- context [try_except ?m ?h w1] =>
      destruct (logged_reraise m ERROR "Error en transcripción de OpenAI"
                  (fun e => Some (exc_str e)) w1)
        as (Hfst & Hfs & _ & _ & Htr);
      rewrite Hfst, Hfs, Htr; clear Hfst Hfs Htr
  end.
  destruct (direct_branch_run env with_extraction up w1 Hdirect)
    as (w2 & Hbranch & Hfs2 & Hpos2 & Htr2).
  rewrite (bind_ok _ _ _ _ _ Hbranch). cbv beta iota. rewrite bind_log.
  set (w3 := snd (log INFO "Enviando archivo a OpenAI para transcripción"
                      None w2)).
  match goal with
  | |- context [bind ?m _ w3] =>
      destruct (logged_result m INFO "Transcripción de OpenAI completada"
                  None w3) as (Hfst & Hfs & _ & _ & Htr);
      rewrite Hfst, Hfs, Htr; clear Hfst Hfs Htr
  end.
  destruct (transcriptions_create_run
              env up model (PyStr.or_default (filename up) "audio")
              UploadedFile_file w3) as (w4 & Hcreate & Hfs4 & Htr4).
  rewrite Hcreate. cbn [fst snd]. rewrite Hfs4, Htr4.
  subst w3. cbn [snd log w_fs w_pos w_trace]. rewrite Hfs2, Hpos2, Htr2.
  subst w1. cbn [snd log w_fs w_pos w_trace].
  unfold rest_of. rewrite drop_0, <- app_assoc. auto.
Qed.

(** *** The service manager and the handler around the adapter *)

Lemma service_manager_run sm up model w :
  fst (ServiceManager.transcribe_media sm up model w)
  = fst (transcribe_from_upload (ServiceManager._transcription_service sm)
           up model
           (snd (log INFO "Iniciando transcripción de archivo" None w)))
  /\ log_only
       (snd (transcribe_from_upload (ServiceManager._transcription_service sm)
               up model
               (snd (log INFO "Iniciando transcripción de archivo" None w))))
       (snd (ServiceManager.transcribe_media sm up model w)).
Proof.
  unfold ServiceManager.transcribe_media. rewrite bind_log.
  apply logged_result.
Qed.

(** Past the content-type check, the handler answers with the transcription
    when the service manager returns one, and with the fixed 500 answer when
    the service manager raises. *)
Lemma handler_past_validation sm file model w :
  fastapi_app.rejected_content_type (content_type file) = false ->
  fastapi_app.transcribe_media sm file model w
  = match ServiceManager.transcribe_media
            sm file (default fastapi_app.default_model model)
            (snd (log INFO "Recibida solicitud de transcripción" None w))
    with
    | (Ok transcription, w') =>
        (Ok (ReturnModel (dtos.mkTranscriptionResponse transcription true)),
         snd (log INFO "Solicitud de transcripción completada exitosamente"
                  None w'))
    | (Raise e, w') =>
        (Ok (ReturnJSONResponse 500 Spec.generic_error_body),
         snd (log ERROR "Error procesando solicitud de transcripción"
                  (Some (exc_str e)) w'))
    end.
Proof.
  intros Hvalid. unfold fastapi_app.transcribe_media.
  rewrite bind_log, Hvalid. unfold try_except, bind.
  destruct (ServiceManager.transcribe_media _ _ _ _) as [[t|e] w'];
    reflexivity.
Qed.

(** A rejected request: two log records, the pair of line 63, and nothing
    else. *)
Lemma handler_rejects sm file model w :
  fastapi_app.rejected_content_type (content_type file) = true ->
  fastapi_app.transcribe_media sm file model w
  = (Ok (ReturnTuple
           [("msg", JStr "El archivo debe ser de tipo audio o video")] 400),
     mkWorld (w_fs w) (w_pos w) (w_tmp w) (w_trace w)
             (w_log w
              ++ [mkLog INFO "Recibida solicitud de transcripción" None;
                  mkLog WARNING
                        "Archivo rechazado por tipo de contenido inválido"
                        None])).
Proof.
  intros Hrej. unfold fastapi_app.transcribe_media.
  rewrite bind_log, Hrej. unfold bind, log, ret. simpl.
  rewrite <- app_assoc. reflexivity.
Qed.

Lemma not_media_type_rejected (ct : option string) :
  Spec.not_media_type ct -> fastapi_app.rejected_content_type ct = true.
Proof.
  unfold fastapi_app.rejected_content_type.
  destruct ct as [[|c r]|]; simpl; auto.
  intros [Ha Hv]. unfold PyStr.startswith. rewrite Ha, Hv. reflexivity.
Qed.

Lemma handler_trace_past_validation sm file model w :
  fastapi_app.rejected_content_type (content_type file) = false ->
  w_trace (snd (fastapi_app.transcribe_media sm file model w))
  = w_trace
      (snd (transcribe_from_upload
              (ServiceManager._transcription_service sm) file
              (default fastapi_app.default_model model)
              (snd (log INFO "Iniciando transcripción de archivo" None
                      (snd (log INFO "Recibida solicitud de transcripción"
                                None w)))))).
Proof.
  intros Hvalid. rewrite (handler_past_validation _ _ _ _ Hvalid).
  destruct (service_manager_run
              sm file (default fastapi_app.default_model model)
              (snd (log INFO "Recibida solicitud de transcripción" None w)))
    as (_ & _ & _ & _ & Htr).
  rewrite <- Htr.
  destruct (ServiceManager.transcribe_media _ _ _ _) as [[t|e] w'];
    reflexivity.
Qed.

(** ** Content-type rejection *)

(** Every upload whose declared content type is absent or does not begin
    with "audio/" or "video/" is turned away before anything downstream is
    touched: no event, no file, and the log shows the request and the
    rejection only, so not even the service manager was entered. What the
    handler returns is the pair of line 63. *)
Lemma rejection_invokes_nothing sm file model w :
  Spec.not_media_type (content_type file) ->
  fst (fastapi_app.transcribe_media sm file model w)
  = Ok (ReturnTuple
          [("msg", JStr "El archivo debe ser de tipo audio o video")] 400)
  /\ events_of (fastapi_app.transcribe_media sm file model) w = []
  /\ w_fs (snd (fastapi_app.transcribe_media sm file model w)) = w_fs w
  /\ logged (fastapi_app.transcribe_media sm file model) w
     = [mkLog INFO "Recibida solicitud de transcripción" None;
        mkLog WARNING "Archivo rechazado por tipo de contenido inválido" None].
Proof.
  intros Hct. unfold events_of, logged.
  rewrite (handler_rejects _ _ _ _ (not_media_type_rejected _ Hct)).
  cbn [fst snd w_fs w_trace w_log]. repeat split.
  - apply new_events_app. symmetry. apply app_nil_r.
  - apply drop_app_length.
Qed.

(** C1, at the upload of the scenario. For a PDF upload the handler touches
    nothing downstream, but it returns the Python pair (message, 400), not
    a response with status 400; for the route's response model that value
    does not validate, and the request is answered 500. *)
Theorem C1_pdf_upload_is_not_answered_400
    (sm : ServiceManager.t) (model : option string) (w : World) :
  fst (fastapi_app.transcribe_media sm Sample.pdf model w)
  = Ok (ReturnTuple
          [("msg", JStr "El archivo debe ser de tipo audio o video")] 400)
  /\ events_of (fastapi_app.transcribe_media sm Sample.pdf model) w = []
  /\ fst (fastapi_app.serve fastapi_app.respond_transcribe
            (fastapi_app.transcribe_media sm Sample.pdf model) w)
     = mkHttpResponse 500 (TextBody "Internal Server Error")
  /\ status (fst (fastapi_app.serve fastapi_app.respond_transcribe
                    (fastapi_app.transcribe_media sm Sample.pdf model) w))
     <> 400%Z.
Proof.
  destruct (rejection_invokes_nothing sm Sample.pdf model w)
    as (Hret & Hev & _); [split; reflexivity|].
  split; [exact Hret|]. split; [exact Hev|].
  unfold fastapi_app.serve.
  destruct (fastapi_app.transcribe_media sm Sample.pdf model w) as [r w'].
  simpl in Hret. subst r. simpl. split; [reflexivity | discriminate].
Qed.

(** ** Processing errors *)

(** C4. For every exception that processing raises once the content-type
    check has passed, whatever its kind and wherever it comes from, the
    endpoint answers with status 500 and the body
    [{"success": false, "error": "Error interno del servidor"}]: the answer
    is the same for every exception, whose text goes to the log only. *)
Theorem C4_processing_error_answers_generic_500
    (sm : ServiceManager.t) (file : UploadFile) (model : option string)
    (w w' : World) (e : Exc) :
  fastapi_app.rejected_content_type (content_type file) = false ->
  ServiceManager.transcribe_media
    sm file (default fastapi_app.default_model model)
    (snd (log INFO "Recibida solicitud de transcripción" None w))
  = (Raise e, w') ->
  fastapi_app.serve fastapi_app.respond_transcribe
    (fastapi_app.transcribe_media sm file model) w
  = (mkHttpResponse 500 (JsonBody Spec.generic_error_body),
     snd (log ERROR "Error procesando solicitud de transcripción"
              (Some (exc_str e)) w')).
Proof.
  intros Hvalid Hraise. unfold fastapi_app.serve.
  rewrite (handler_past_validation _ _ _ _ Hvalid), Hraise. reflexivity.
Qed.

Lemma C4_witness :
  (* the external tool fails *)
  fst (fastapi_app.serve fastapi_app.respond_transcribe
         (fastapi_app.transcribe_media
            (bootstrap.wired_service_manager Sample.env_ffmpeg_fails)
            Sample.clip None) Sample.w0)
  = mkHttpResponse 500 (JsonBody Spec.generic_error_body)
  (* the remote API fails *)
  /\ fst (fastapi_app.serve fastapi_app.respond_transcribe
            (fastapi_app.transcribe_media
               (bootstrap.wired_service_manager Sample.env_openai_fails)
               Sample.voice None) Sample.w0)
     = mkHttpResponse 500 (JsonBody Spec.generic_error_body).
Proof.
  split.
  - rewrite (C4_processing_error_answers_generic_500
               (bootstrap.wired_service_manager Sample.env_ffmpeg_fails)
               Sample.clip None Sample.w0
               (snd (ServiceManager.transcribe_media
                       (bootstrap.wired_service_manager Sample.env_ffmpeg_fails)
                       Sample.clip "whisper-1"
                       (snd (log INFO "Recibida solicitud de transcripción"
                                 None Sample.w0))))
               (ffmpeg_Error (Some "Invalid data found"))).
    + reflexivity.
    + reflexivity.
    + vm_compute. reflexivity.
  - rewrite (C4_processing_error_answers_generic_500
               (bootstrap.wired_service_manager Sample.env_openai_fails)
               Sample.voice None Sample.w0
               (snd (ServiceManager.transcribe_media
                       (bootstrap.wired_service_manager Sample.env_openai_fails)
                       Sample.voice "whisper-1"
                       (snd (log INFO "Recibida solicitud de transcripción"
                                 None Sample.w0))))
               (PyException "AuthenticationError" "Incorrect API key provided")).
    + reflexivity.
    + reflexivity.
    + vm_compute. reflexivity.
Defined.

(** The text of the exception is in the log and not in the answer. *)
Example tool_failure_detail_stays_in_log :
  List.map log_detail
    (List.filter (fun r => match log_level r with ERROR => true | _ => false end)
       (w_log (snd (fastapi_app.transcribe_media
                      (bootstrap.wired_service_manager Sample.env_ffmpeg_fails)
                      Sample.clip None Sample.w0))))
  = [Some "Invalid data found";
     Some "ffmpeg error (see stderr output for detail)";
     Some "ffmpeg error (see stderr output for detail)";
     Some "ffmpeg error (see stderr output for detail)"].
Proof. reflexivity. Qed.

(** ** Health *)

(** C8. The application that [create_app] builds, for any service manager,
    answers every GET /health with status 200 and the body
    [{"status": "healthy"}], in any state of the world. *)
Theorem C8_health_is_always_healthy (sm : ServiceManager.t) (w : World) :
  exists app,
    fst (fastapi_app.create_app sm w) = Ok app
    /\ forall w' : World,
        fastapi_app.get_health app w'
        = (mkHttpResponse 200 (JsonBody [("status", JStr "healthy")]),
           snd (log DEBUG "Health check solicitado" None w')).
Proof. eexists. split; [reflexivity|]. intros w'. reflexivity. Qed.

(** ** Uploads that need no transcoding *)

Lemma events_of_service_manager sm up model w :
  events_of (ServiceManager.transcribe_media sm up model) w
  = events_of
      (transcribe_from_upload (ServiceManager._transcription_service sm)
         up model)
      (snd (log INFO "Iniciando transcripción de archivo" None w)).
Proof.
  unfold events_of, new_events.
  destruct (service_manager_run sm up model w) as (_ & _ & _ & _ & Htr).
  rewrite Htr. reflexivity.
Qed.

(** C6. For every upload whose filename has an already-supported
    extension, the adapter hands on the upload's own file object under the
    original filename, and the pipeline as wired by [bootstrap_app] does
    two things only: it rewinds the upload and calls the remote API with
    the original filename and the upload's content. No temporary file is
    created, the external tool is not run, and the files are as before. *)
Theorem C6_supported_upload_is_sent_as_it_is
    (env : Env) (uploaded_file : UploadFile) (fname model : string)
    (w : World) :
  filename uploaded_file = Some fname ->
  Spec.extension_supported (PurePath.suffix fname) ->
  fst (FFmpegAudioExtractionAdapter.extract_audio_stream env uploaded_file w)
  = Ok (UploadedFile_file, fname)
  /\ events_of (ServiceManager.transcribe_media
                  (bootstrap.wired_service_manager env) uploaded_file model) w
     = [EvUploadSeek 0; EvOpenAI model fname (content uploaded_file)]
  /\ List.filter is_transcoding_event
       (events_of (ServiceManager.transcribe_media
                     (bootstrap.wired_service_manager env) uploaded_file model)
                  w) = []
  /\ w_fs (snd (ServiceManager.transcribe_media
                  (bootstrap.wired_service_manager env) uploaded_file model w))
     = w_fs w.
Proof.
  intros Hname Hext.
  assert (Hsup : media_prober uploaded_file = AlreadySupported).
  { apply media_prober_supported.
    rewrite Hname, or_default_some_empty. exact Hext. }
  destruct (supported_has_name _ Hsup) as (fname' & Hname' & Hor).
  assert (fname' = fname) as -> by congruence.
  assert (Hevents :
    events_of (ServiceManager.transcribe_media
                 (bootstrap.wired_service_manager env) uploaded_file model) w
    = [EvUploadSeek 0; EvOpenAI model fname (content uploaded_file)]).
  { rewrite events_of_service_manager.
    change (transcribe_from_upload _)
      with (OpenAITranscriptionAdapter.transcribe_from_upload
              env (extraction_service env true)).
    destruct (direct_run env true uploaded_file model
                (snd (log INFO "Iniciando transcripción de archivo" None w))
                (or_intror Hsup)) as (Htr & _).
    rewrite Hor in Htr. apply new_events_app. exact Htr. }
  split; [|split; [exact Hevents|split]].
  - rewrite extract_audio_stream_by_class, Hsup, Hor. reflexivity.
  - rewrite Hevents. reflexivity.
  - destruct (service_manager_run
                (bootstrap.wired_service_manager env) uploaded_file model w)
      as (_ & Hfs & _).
    rewrite Hfs.
    change (transcribe_from_upload _)
      with (OpenAITranscriptionAdapter.transcribe_from_upload
              env (extraction_service env true)).
    destruct (direct_run env true uploaded_file model
                (snd (log INFO "Iniciando transcripción de archivo" None w))
                (or_intror Hsup)) as (_ & Hfs' & _).
    rewrite Hfs'. reflexivity.
Qed.

Lemma C6_witness :
  fst (FFmpegAudioExtractionAdapter.extract_audio_stream
         Sample.env_ok Sample.voice Sample.w0)
  = Ok (UploadedFile_file, "voice.mp3")
  /\ events_of (ServiceManager.transcribe_media
                  (bootstrap.wired_service_manager Sample.env_ok)
                  Sample.voice "whisper-1") Sample.w0
     = [EvUploadSeek 0; EvOpenAI "whisper-1" "voice.mp3" Sample.data]
  /\ List.filter is_transcoding_event
       (events_of (ServiceManager.transcribe_media
                     (bootstrap.wired_service_manager Sample.env_ok)
                     Sample.voice "whisper-1") Sample.w0) = []
  /\ w_fs (snd (ServiceManager.transcribe_media
                  (bootstrap.wired_service_manager Sample.env_ok)
                  Sample.voice "whisper-1" Sample.w0))
     = w_fs Sample.w0.
Proof.
  apply (C6_supported_upload_is_sent_as_it_is
           Sample.env_ok Sample.voice "voice.mp3" "whisper-1" Sample.w0).
  - reflexivity.
  - exists ".mp3". split; [simpl; tauto | reflexivity].
Defined.

(** C9. Whenever the upload's own stream goes to the remote API, which is
    the case without extraction service and for an upload the prober
    accepts, the upload is first rewound to position 0 and the call carries
    the whole content of the upload, wherever the stream stood before. A
    read of the stream where it stands returns only what lies after the
    position. *)
Theorem C9_direct_paths_rewind_the_upload
    (env : Env) (with_extraction : bool) (uploaded_file : UploadFile)
    (model : string) (w : World) :
  with_extraction = false \/ media_prober uploaded_file = AlreadySupported ->
  events_of
    (OpenAITranscriptionAdapter.transcribe_from_upload
       env (extraction_service env with_extraction) uploaded_file model) w
  = [EvUploadSeek 0;
     EvOpenAI model (PyStr.or_default (filename uploaded_file) "audio")
              (content uploaded_file)]
  /\ fst (stream_read uploaded_file UploadedFile_file w)
     = Ok (drop (w_pos w) (content uploaded_file)).
Proof.
  intros Hdirect. split; [|reflexivity].
  apply new_events_app.
  apply (direct_run env with_extraction uploaded_file model w Hdirect).
Qed.

Lemma C9_witness :
  (* the stream stands at its end: a read returns nothing *)
  fst (stream_read Sample.voice UploadedFile_file (set_pos 2 Sample.w0))
  = Ok []
  (* with the FFmpeg adapter and a supported upload *)
  /\ events_of
       (OpenAITranscriptionAdapter.transcribe_from_upload
          Sample.env_ok (extraction_service Sample.env_ok true)
          Sample.voice "whisper-1") (set_pos 2 Sample.w0)
     = [EvUploadSeek 0; EvOpenAI "whisper-1" "voice.mp3" Sample.data]
  (* without extraction service *)
  /\ events_of
       (OpenAITranscriptionAdapter.transcribe_from_upload
          Sample.env_ok (extraction_service Sample.env_ok false)
          Sample.clip "whisper-1") (set_pos 1 Sample.w0)
     = [EvUploadSeek 0; EvOpenAI "whisper-1" "clip.mp4" Sample.data].
Proof.
  split; [reflexivity|]. split.
  - apply (C9_direct_paths_rewind_the_upload
             Sample.env_ok true Sample.voice "whisper-1"
             (set_pos 2 Sample.w0)).
    right. reflexivity.
  - apply (C9_direct_paths_rewind_the_upload
             Sample.env_ok false Sample.clip "whisper-1"
             (set_pos 1 Sample.w0)).
    left. reflexivity.
Defined.

(** ** The model name *)

Lemma uses_model_models_called (model : string) (evs : list Event) :
  forallb (uses_model model) evs = true ->
  Forall (fun m => m = model) (models_called evs).
Proof.
  unfold models_called.
  induction evs as [|ev evs IH]; simpl; [constructor|].
  intros H. apply andb_true_iff in H as [Hev Hevs].
  destruct ev; simpl; auto.
  constructor; [|auto]. simpl. apply String.eqb_eq. exact Hev.
Qed.

Lemma uses_model_other (model : string) (ev : Event) :
  is_openai_call ev = false -> uses_model model ev = true.
Proof. destruct ev; simpl; congruence. Qed.

Lemma uses_model_call (model file_name : string) (payload : bytes) :
  uses_model model (EvOpenAI model file_name payload) = true.
Proof. simpl. apply String.eqb_refl. Qed.

(** Whatever happens to a request, every call of the remote API made for
    it names the model bound by the handler. *)
Lemma grows_handler env (with_extraction : bool) file model :
  preserves (grows_by (uses_model (default fastapi_app.default_model model)))
    (fastapi_app.transcribe_media
       (service_manager env with_extraction) file model).
Proof.
  unfold fastapi_app.transcribe_media, ServiceManager.transcribe_media.
  apply preserves_bind; [typeclasses eauto | apply grows_log |].
  intros _. destruct (fastapi_app.rejected_content_type _); [pres|].
  apply preserves_try_except; [typeclasses eauto | | intros e; pres].
  apply preserves_bind; [typeclasses eauto | | intros t; pres].
  apply preserves_bind; [typeclasses eauto | apply grows_log |].
  intros _. apply preserves_bind; [typeclasses eauto | | intros t; pres].
  apply grows_transcribe_from_upload.
  - apply uses_model_other.
  - intros. apply uses_model_call.
Qed.



(** The scenario of the specification: clip.mp4, no model field. *)
Example clip_is_transcoded_and_sent_with_default_model :
  fst (fastapi_app.serve fastapi_app.respond_transcribe
         (fastapi_app.transcribe_media
            (bootstrap.wired_service_manager Sample.env_ok)
            Sample.clip None) Sample.w0)
  = mkHttpResponse 200
      (JsonBody [("transcription", JStr "hola"); ("success", JBool true)])
  /\ openai_calls
       (events_of (fastapi_app.transcribe_media
                     (bootstrap.wired_service_manager Sample.env_ok)
                     Sample.clip None) Sample.w0)
     = [("whisper-1", "clip.mp3", [Byte.x01; Byte.x02; Byte.x4d])].
Proof. split; reflexivity. Qed.

(** ** Running forward when nothing outside fails *)

Lemma NamedTemporaryFile_run env suffix w r :
  env_tmp_name env (w_tmp w) = Some r ->
  w_fs w !! tmp_path r suffix = None ->
  NamedTemporaryFile env suffix w
  = (Ok (tmp_path r suffix),
     mkWorld (<[tmp_path r suffix := []]> (w_fs w)) (w_pos w) (S (w_tmp w))
             (w_trace w ++ [EvTmpCreate (tmp_path r suffix)]) (w_log w)).
Proof.
  intros Hr Hfree. unfold NamedTemporaryFile. rewrite Hr, Hfree. reflexivity.
Qed.

Lemma upload_read_run env up w :
  env_fault env AtUploadRead = None ->
  upload_read env up w
  = (Ok (rest_of up (w_pos w)),
     mkWorld (w_fs w) (Nat.max (w_pos w) (length (content up))) (w_tmp w)
             (w_trace w ++ [EvUploadRead (rest_of up (w_pos w))]) (w_log w)).
Proof.
  intros Hf. unfold upload_read, fault, bind. rewrite Hf. reflexivity.
Qed.

Lemma file_write_run env path data w old :
  env_fault env AtTempWrite = None ->
  w_fs w !! path = Some old ->
  file_write env path data w
  = (Ok tt,
     mkWorld (<[path := (old ++ data)%list]> (w_fs w)) (w_pos w) (w_tmp w)
             (w_trace w ++ [EvFileWrite path data]) (w_log w)).
Proof.
  intros Hf Hold. unfold file_write, fault, bind, emit, ret. rewrite Hf.
  cbv beta iota zeta. rewrite Hold. reflexivity.
Qed.

Lemma file_flush_run env path w :
  env_fault env AtTempFlush = None -> file_flush env path w = (Ok tt, w).
Proof. intros Hf. unfold file_flush, fault. rewrite Hf. reflexivity. Qed.

Lemma ffmpeg_run_done env input output w data out :
  w_fs w !! input = Some data ->
  env_ffmpeg env data = FfmpegDone out ->
  ffmpeg_run env input output w
  = (Ok tt,
     mkWorld (<[output := out]> (w_fs w)) (w_pos w) (w_tmp w)
             (w_trace w ++ [EvFfmpeg input output]) (w_log w)).
Proof.
  intros Hin Hout. unfold ffmpeg_run, bind, emit. cbn [w_fs].
  rewrite Hin, Hout. reflexivity.
Qed.

Lemma open_read_run env path w data :
  env_fault env AtOutputOpen = None ->
  env_fault env AtOutputRead = None ->
  w_fs w !! path = Some data ->
  open_read env path w
  = (Ok data,
     mkWorld (w_fs w) (w_pos w) (w_tmp w)
             (w_trace w ++ [EvFileRead path data]) (w_log w)).
Proof.
  intros Ho Hr Hd. unfold open_read, fault, bind, ret. rewrite Ho.
  cbv beta iota zeta. rewrite Hd, Hr. reflexivity.
Qed.

Lemma try_except_if_ok {A} sel (m : M A) h (w w' : World) (a : A) :
  m w = (Ok a, w') -> try_except_if sel m h w = (Ok a, w').
Proof.
  intros H. unfold try_except_if, try_except. rewrite H. reflexivity.
Qed.

(** With no fault and a tool that succeeds, the guarded body returns what
    the tool made of the bytes read from the upload. *)
Lemma guarded_body_benign env up i o w out :
  (forall p, env_fault env p = None) ->
  w_fs w !! i = Some [] ->
  i <> o ->
  env_ffmpeg env (rest_of up (w_pos w)) = FfmpegDone out ->
  fst (FFmpegAudioExtractionAdapter.guarded_body env up i o w)
  = Ok (BytesIO out,
        PurePath.stem (PyStr.or_default (filename up) "audio") ++ ".mp3").
Proof.
  intros Hfault Hi Hne Hout.
  unfold FFmpegAudioExtractionAdapter.guarded_body.
  rewrite (proj1 (logged_reraise _ ERROR _ (fun e => Some (exc_str e)) w)).
  unfold FFmpegAudioExtractionAdapter.transcode_body.
  rewrite bind_log.
  rewrite (bind_ok _ _ _ _ _ (upload_read_run env up _ (Hfault _))).
  cbv beta. cbn [snd log w_fs w_pos w_tmp w_trace w_log].
  erewrite (bind_ok _ _ _ _ tt);
    [|apply file_write_run with (old := []); [apply Hfault | exact Hi]].
  cbv beta.
  rewrite (bind_ok _ _ _ _ _ (file_flush_run env i _ (Hfault _))).
  cbv beta. rewrite !bind_log. cbn [snd log w_fs w_pos w_tmp w_trace w_log].
  erewrite (bind_ok _ _ _ _ tt).
  2:{ apply try_except_if_ok.
      apply (ffmpeg_run_done env i o _ (rest_of up (w_pos w)) out).
      - cbn [w_fs]. apply lookup_insert_eq.
      - exact Hout. }
  cbv beta. cbn [w_fs w_pos w_tmp w_trace w_log].
  erewrite (bind_ok _ _ _ _ out).
  2:{ apply open_read_run; try apply Hfault.
      cbn [w_fs]. apply lookup_insert_eq. }
  reflexivity.
Qed.

(** With fresh temporary names, no fault and a tool that succeeds, the
    transcoding path returns the tool's output under the ".mp3" name. *)
Lemma extract_with_ffmpeg_benign env up w r1 r2 out :
  (forall p, env_fault env p = None) ->
  env_tmp_name env (w_tmp w) = Some r1 ->
  env_tmp_name env (S (w_tmp w)) = Some r2 ->
  w_fs w !! tmp_path r1 (PurePath.suffix (PyStr.or_default (filename up) ""))
  = None ->
  w_fs w !! tmp_path r2 ".mp3" = None ->
  tmp_path r1 (PurePath.suffix (PyStr.or_default (filename up) ""))
  <> tmp_path r2 ".mp3" ->
  env_ffmpeg env (rest_of up (w_pos w)) = FfmpegDone out ->
  fst (FFmpegAudioExtractionAdapter._extract_audio_with_ffmpeg env up w)
  = Ok (BytesIO out,
        PurePath.stem (PyStr.or_default (filename up) "audio") ++ ".mp3").
Proof.
  intros Hfault Hr1 Hr2 Hfree1 Hfree2 Hne Hout.
  set (i := tmp_path r1 (PurePath.suffix (PyStr.or_default (filename up) "")))
    in *.
  set (o := tmp_path r2 ".mp3") in *.
  unfold FFmpegAudioExtractionAdapter._extract_audio_with_ffmpeg.
  rewrite bind_log.
  erewrite (bind_ok _ _ _ _ i);
    [|apply NamedTemporaryFile_run; [exact Hr1 | exact Hfree1]].
  cbv beta. cbn [snd log w_fs w_pos w_tmp w_trace w_log].
  erewrite (bind_ok _ _ _ _ o).
  2:{ apply NamedTemporaryFile_run; cbn [w_tmp w_fs]; [exact Hr2|].
      rewrite lookup_insert_ne by exact Hne. exact Hfree2. }
  cbv beta. cbn [w_fs w_pos w_tmp w_trace w_log].
  match goal with
  | |- context [try_finally _ _ ?x] => set (w3 := x)
  end.
  assert (Hi3 : w_fs w3 !! i = Some []).
  { subst w3. cbn [w_fs]. rewrite lookup_insert_ne by auto.
    apply lookup_insert_eq. }
  assert (Ho3 : w_fs w3 !! o = Some []).
  { subst w3. cbn [w_fs]. apply lookup_insert_eq. }
  pose proof (guarded_body_benign env up i o w3 out Hfault Hi3 Hne Hout)
    as Hbody.
  pose proof (kept_guarded_body env up i o w3) as Hkept.
  unfold try_finally.
  destruct (FFmpegAudioExtractionAdapter.guarded_body env up i o w3)
    as [r w4].
  cbn [fst snd] in Hbody, Hkept. subst r.
  rewrite cleanup_removes; [reflexivity | exact Hne | |].
  - apply Hkept. exists []. exact Hi3.
  - apply Hkept. exists []. exact Ho3.
Qed.

(** The calls of the remote API among events that are none. *)
Lemma openai_calls_none (evs : list Event) :
  forallb (fun ev => negb (is_openai_call ev)) evs = true ->
  openai_calls evs = [].
Proof.
  induction evs as [|ev evs IH]; [reflexivity|].
  simpl. intros H. apply andb_true_iff in H as [H1 H2].
  destruct ev; simpl in *; try discriminate; auto.
Qed.

Lemma openai_calls_app (a b : list Event) :
  openai_calls (a ++ b) = (openai_calls a ++ openai_calls b)%list.
Proof.
  induction a as [|ev a IH]; [reflexivity|].
  destruct ev; simpl; rewrite IH; reflexivity.
Qed.

(** The pipeline as wired, on an upload that needs transcoding, when
    nothing outside fails: the text of the remote API comes back, after one
    call that carries the tool's output under the ".mp3" name. *)
Lemma transcoding_pipeline_benign env up model w r1 r2 out text :
  media_prober up = NeedsTranscoding ->
  (forall p, env_fault env p = None) ->
  env_tmp_name env (w_tmp w) = Some r1 ->
  env_tmp_name env (S (w_tmp w)) = Some r2 ->
  w_fs w !! tmp_path r1 (PurePath.suffix (PyStr.or_default (filename up) ""))
  = None ->
  w_fs w !! tmp_path r2 ".mp3" = None ->
  tmp_path r1 (PurePath.suffix (PyStr.or_default (filename up) ""))
  <> tmp_path r2 ".mp3" ->
  env_ffmpeg env (rest_of up (w_pos w)) = FfmpegDone out ->
  env_openai env model
    (PurePath.stem (PyStr.or_default (filename up) "audio") ++ ".mp3") out
  = Ok text ->
  fst (OpenAITranscriptionAdapter.transcribe_from_upload
         env (Some (FFmpegAudioExtractionAdapter.new env)) up model w)
  = Ok text
  /\ openai_calls
       (events_of (OpenAITranscriptionAdapter.transcribe_from_upload
                     env (Some (FFmpegAudioExtractionAdapter.new env))
                     up model) w)
     = [(model,
         PurePath.stem (PyStr.or_default (filename up) "audio") ++ ".mp3",
         out)].
Proof.
  intros Hneeds Hfault Hr1 Hr2 Hfree1 Hfree2 Hne Hout Hopenai.
  set (file_name :=
         PurePath.stem (PyStr.or_default (filename up) "audio") ++ ".mp3") in *.
  unfold events_of, new_events.
  unfold OpenAITranscriptionAdapter.transcribe_from_upload.
  rewrite bind_log.
  set (w1 := snd (log INFO "Iniciando transcripción con OpenAI" None w)).
  match goal with
  | |- context [try_except ?m ?h w1] =>
      destruct (logged_reraise m ERROR "Error en transcripción de OpenAI"
                  (fun e => Some (exc_str e)) w1)
        as (Hfst & _ & _ & _ & Htr);
      rewrite Hfst, Htr; clear Hfst Htr
  end.
  cbn [extract_audio_stream FFmpegAudioExtractionAdapter.new].
  rewrite extract_audio_stream_by_class, Hneeds.
  set (w2 := snd (log INFO "Archivo requiere extracción de audio" None
               (snd (log INFO "Analizando archivo para extracción de audio"
                         None
                  (snd (log INFO "Extrayendo audio del archivo" None w1)))))).
  pose proof (extract_with_ffmpeg_benign env up w2 r1 r2 out
                Hfault Hr1 Hr2 Hfree1 Hfree2 Hne Hout) as Hex.
  pose proof (grows_extract_with_ffmpeg
                (fun ev => negb (is_openai_call ev))
                ltac:(intros ev H; cbv beta; rewrite H; reflexivity)
                env up w2) as (evs & Htr & Hevs).
  destruct (FFmpegAudioExtractionAdapter._extract_audio_with_ffmpeg env up w2)
    as [r w3] eqn:Hrun.
  cbn [fst snd] in Hex, Htr. subst r.
  assert (Hinner :
    (log INFO "Extrayendo audio del archivo" None ;;
     r <- (log INFO "Analizando archivo para extracción de audio" None ;;
           log INFO "Archivo requiere extracción de audio" None ;;
           FFmpegAudioExtractionAdapter._extract_audio_with_ffmpeg env up) ;;
     log INFO "Audio extraído exitosamente" None ;;
     ret r) w1
    = (Ok (BytesIO out, file_name),
       snd (log INFO "Audio extraído exitosamente" None w3))).
  { rewrite bind_log. unfold bind at 1. rewrite !bind_log.
    fold w2. rewrite Hrun. reflexivity. }
  rewrite (bind_ok _ _ _ _ _ Hinner). cbv beta iota. rewrite bind_log.
  match goal with
  | |- context [bind (transcriptions_create _ _ _ _ _) _ ?x] =>
      set (w4 := x)
  end.
  match goal with
  | |- context [bind ?m _ w4] =>
      destruct (logged_result m INFO "Transcripción de OpenAI completada"
                  None w4) as (Hfst & _ & _ & _ & Htr');
      rewrite Hfst, Htr'; clear Hfst Htr'
  end.
  destruct (transcriptions_create_run
              env up model file_name (BytesIO out) w4)
    as (w5 & Hcreate & _ & Htr5).
  rewrite Hcreate, Hopenai. cbn [fst snd]. split; [reflexivity|].
  rewrite Htr5. subst w4. cbn [snd log w_trace]. rewrite Htr.
  subst w2 w1. cbn [snd log w_trace].
  rewrite <- app_assoc, drop_app_length, openai_calls_app.
  rewrite (openai_calls_none _ Hevs). reflexivity.
Qed.

(** ** Uploads without a filename *)

(** C10. For every upload whose filename is absent or empty: the prober
    sees an empty extension and answers needs-transcoding; a transcoding
    that returns names its payload "audio.mp3"; the path without extraction
    service sends the upload under the name "audio"; and nothing fails on
    account of the name: when the surroundings do not fail (fresh temporary
    names, no fault, a tool that succeeds, an API that answers), the
    pipeline as wired returns the text after one call named "audio.mp3",
    and the path without extraction service returns it after its call named
    "audio". *)
Theorem C10_absent_filename
    (env : Env) (uploaded_file : UploadFile) (model : string) (w : World) :
  filename uploaded_file = None \/ filename uploaded_file = Some "" ->
  (FFmpegAudioExtractionAdapter.file_extension uploaded_file = ""
   /\ media_prober uploaded_file = NeedsTranscoding)
  /\ (forall audio_stream audio_filename,
         fst (FFmpegAudioExtractionAdapter._extract_audio_with_ffmpeg
                env uploaded_file w) = Ok (audio_stream, audio_filename) ->
         audio_filename = "audio.mp3")
  /\ events_of (OpenAITranscriptionAdapter.transcribe_from_upload
                  env None uploaded_file model) w
     = [EvUploadSeek 0; EvOpenAI model "audio" (content uploaded_file)]
  /\ (forall r1 r2 out text,
         (forall p, env_fault env p = None) ->
         env_tmp_name env (w_tmp w) = Some r1 ->
         env_tmp_name env (S (w_tmp w)) = Some r2 ->
         w_fs w !! tmp_path r1 "" = None ->
         w_fs w !! tmp_path r2 ".mp3" = None ->
         tmp_path r1 "" <> tmp_path r2 ".mp3" ->
         env_ffmpeg env (rest_of uploaded_file (w_pos w)) = FfmpegDone out ->
         env_openai env model "audio.mp3" out = Ok text ->
         fst (ServiceManager.transcribe_media
                (bootstrap.wired_service_manager env) uploaded_file model w)
         = Ok text
         /\ openai_calls
              (events_of (ServiceManager.transcribe_media
                            (bootstrap.wired_service_manager env)
                            uploaded_file model) w)
            = [(model, "audio.mp3", out)])
  /\ (forall text,
         env_openai env model "audio" (content uploaded_file) = Ok text ->
         fst (OpenAITranscriptionAdapter.transcribe_from_upload
                env None uploaded_file model w) = Ok text).
Proof.
  intros Hname.
  assert (Hsuffix :
    PurePath.suffix (PyStr.or_default (filename uploaded_file) "") = "").
  { destruct Hname as [-> | ->]; reflexivity. }
  assert (Hpayload :
    PurePath.stem (PyStr.or_default (filename uploaded_file) "audio") ++ ".mp3"
    = "audio.mp3").
  { destruct Hname as [-> | ->]; reflexivity. }
  assert (Hfallback :
    PyStr.or_default (filename uploaded_file) "audio" = "audio").
  { destruct Hname as [-> | ->]; reflexivity. }
  assert (Hneeds : media_prober uploaded_file = NeedsTranscoding).
  { unfold media_prober, FFmpegAudioExtractionAdapter.file_extension.
    rewrite Hsuffix. reflexivity. }
  pose proof (direct_run env false uploaded_file model w (or_introl eq_refl))
    as (Htr & _ & Hfst).
  rewrite Hfallback in Htr, Hfst.
  split; [|split; [|split; [|split]]].
  - split; [|exact Hneeds].
    unfold FFmpegAudioExtractionAdapter.file_extension. rewrite Hsuffix.
    reflexivity.
  - intros s n Hok.
    rewrite (transcoding_payload_name env uploaded_file w s n Hok).
    exact Hpayload.
  - apply new_events_app. exact Htr.
  - intros r1 r2 out text Hfault Hr1 Hr2 Hfree1 Hfree2 Hne Hout Hopenai.
    rewrite events_of_service_manager.
    destruct (service_manager_run
                (bootstrap.wired_service_manager env) uploaded_file model w)
      as (Hfst' & _).
    rewrite Hfst'.
    change (transcribe_from_upload _)
      with (OpenAITranscriptionAdapter.transcribe_from_upload
              env (Some (FFmpegAudioExtractionAdapter.new env))).
    rewrite <- Hpayload.
    apply (transcoding_pipeline_benign
             env uploaded_file model
             (snd (log INFO "Iniciando transcripción de archivo" None w))
             r1 r2 out text Hneeds Hfault Hr1 Hr2).
    + rewrite Hsuffix. exact Hfree1.
    + exact Hfree2.
    + rewrite Hsuffix. exact Hne.
    + exact Hout.
    + rewrite Hpayload. exact Hopenai.
  - intros text Hopenai.
    change (@None AudioExtractionService) with (extraction_service env false).
    rewrite Hfst. exact Hopenai.
Qed.

Lemma C10_witness :
  (FFmpegAudioExtractionAdapter.file_extension Sample.unnamed = ""
   /\ media_prober Sample.unnamed = NeedsTranscoding)
  /\ events_of (OpenAITranscriptionAdapter.transcribe_from_upload
                  Sample.env_ok None Sample.unnamed "whisper-1") Sample.w0
     = [EvUploadSeek 0; EvOpenAI "whisper-1" "audio" Sample.data]
  /\ (fst (ServiceManager.transcribe_media
             (bootstrap.wired_service_manager Sample.env_ok)
             Sample.unnamed "whisper-1" Sample.w0)
      = Ok "hola"
      /\ openai_calls
           (events_of (ServiceManager.transcribe_media
                         (bootstrap.wired_service_manager Sample.env_ok)
                         Sample.unnamed "whisper-1") Sample.w0)
         = [("whisper-1", "audio.mp3", [Byte.x01; Byte.x02; Byte.x4d])])
  /\ fst (OpenAITranscriptionAdapter.transcribe_from_upload
            Sample.env_ok None Sample.unnamed "whisper-1" Sample.w0)
     = Ok "hola"
  /\ (forall audio_stream audio_filename,
         fst (FFmpegAudioExtractionAdapter._extract_audio_with_ffmpeg
                Sample.env_ok Sample.empty_name Sample.w0)
         = Ok (audio_stream, audio_filename) ->
         audio_filename = "audio.mp3").
Proof.
  destruct (C10_absent_filename
              Sample.env_ok Sample.unnamed "whisper-1" Sample.w0
              (or_introl eq_refl))
    as (Hprober & _ & Hevents & Hwired & Hdirect).
  destruct (C10_absent_filename
              Sample.env_ok Sample.empty_name "whisper-1" Sample.w0
              (or_intror eq_refl))
    as (_ & Hnamed & _).
  split; [exact Hprober|]. split; [exact Hevents|]. split; [|split].
  - apply (Hwired "a" "b" [Byte.x01; Byte.x02; Byte.x4d] "hola");
      try reflexivity.
    discriminate.
  - apply Hdirect. reflexivity.
  - exact Hnamed.
Defined.

(** * Further properties of the code *)

(** ** The handler of POST /transcribe *)

(** The handler never raises, and what it returns is decided by two things
    only: whether the declared content type is rejected, and, if not,
    whether the service manager returns a text or raises. It returns the
    pair of line 63 in the first case, the response model carrying the text
    and [success = true] in the second, the fixed 500 answer in the third. *)
Theorem transcribe_media_outcomes
    (sm : ServiceManager.t) (file : UploadFile) (model : option string)
    (w : World) :
  (fastapi_app.rejected_content_type (content_type file) = true
   /\ fst (fastapi_app.transcribe_media sm file model w)
      = Ok (ReturnTuple
              [("msg", JStr "El archivo debe ser de tipo audio o video")] 400))
  \/ (fastapi_app.rejected_content_type (content_type file) = false
      /\ exists transcription,
          fst (ServiceManager.transcribe_media
                 sm file (default fastapi_app.default_model model)
                 (snd (log INFO "Recibida solicitud de transcripción" None w)))
          = Ok transcription
          /\ fst (fastapi_app.transcribe_media sm file model w)
             = Ok (ReturnModel (dtos.mkTranscriptionResponse transcription true)))
  \/ (fastapi_app.rejected_content_type (content_type file) = false
      /\ exists e,
          fst (ServiceManager.transcribe_media
                 sm file (default fastapi_app.default_model model)
                 (snd (log INFO "Recibida solicitud de transcripción" None w)))
          = Raise e
          /\ fst (fastapi_app.transcribe_media sm file model w)
             = Ok (ReturnJSONResponse 500 Spec.generic_error_body)).
Proof.
  destruct (fastapi_app.rejected_content_type (content_type file)) eqn:Hrej.
  - left. split; [reflexivity|].
    rewrite (handler_rejects _ _ _ _ Hrej). reflexivity.
  - right. rewrite (handler_past_validation _ _ _ _ Hrej).
    destruct (ServiceManager.transcribe_media _ _ _ _) as [[t|e] w'].
    + left. split; [reflexivity|]. exists t. split; reflexivity.
    + right. split; [reflexivity|]. exists e. split; reflexivity.
Qed.

(** The content-type check passes exactly for a declared type that begins
    with "audio/" or with "video/", compared as written: the filename, the
    size and the content play no part, and the comparison is sensitive to
    case. *)
Theorem content_type_accepted_iff (ct : option string) :
  fastapi_app.rejected_content_type ct = false
  <-> exists t, ct = Some t
                /\ (String.prefix "audio/" t = true
                    \/ String.prefix "video/" t = true).
Proof.
  unfold fastapi_app.rejected_content_type, PyStr.startswith_any,
    PyStr.startswith.
  destruct ct as [[|c r]|]; simpl.
  - split; [discriminate|]. intros (t & [= <-] & [H|H]); discriminate.
  - rewrite orb_false_r, negb_false_iff, orb_true_iff. split.
    + intros H. exists (String c r). split; [reflexivity | exact H].
    + intros (t & [= <-] & H). exact H.
  - split; [discriminate|]. intros (t & Ht & _). discriminate.
Qed.

Example content_type_check_is_case_sensitive :
  fastapi_app.rejected_content_type (Some "Audio/mpeg") = true
  /\ fastapi_app.rejected_content_type (Some "audio") = true
  /\ fastapi_app.rejected_content_type (Some "") = true
  /\ fastapi_app.rejected_content_type (Some "video/anything at all") = false.
Proof. repeat split. Qed.

(** ** The service manager *)

(** Whatever transcription service it is given, the service manager returns
    or raises exactly what the service returns or raises, changes nothing
    but the log, and logs the completion only when the service returned. *)
Theorem service_manager_is_transparent
    (sm : ServiceManager.t) (uploaded_file : UploadFile) (model : string)
    (w : World) :
  fst (ServiceManager.transcribe_media sm uploaded_file model w)
  = fst (transcribe_from_upload (ServiceManager._transcription_service sm)
           uploaded_file model
           (snd (log INFO "Iniciando transcripción de archivo" None w)))
  /\ log_only
       (snd (transcribe_from_upload (ServiceManager._transcription_service sm)
               uploaded_file model
               (snd (log INFO "Iniciando transcripción de archivo" None w))))
       (snd (ServiceManager.transcribe_media sm uploaded_file model w))
  /\ w_log (snd (ServiceManager.transcribe_media sm uploaded_file model w))
     = (w_log
          (snd (transcribe_from_upload
                  (ServiceManager._transcription_service sm)
                  uploaded_file model
                  (snd (log INFO "Iniciando transcripción de archivo" None w))))
        ++ match fst (ServiceManager.transcribe_media sm uploaded_file model w)
           with
           | Ok _ => [mkLog INFO "Transcripción completada exitosamente" None]
           | Raise _ => []
           end)%list.
Proof.
  unfold ServiceManager.transcribe_media. rewrite bind_log. unfold bind.
  destruct (transcribe_from_upload _ _ _ _) as [[t|e] w']; simpl.
  - repeat split.
  - repeat split. symmetry. apply app_nil_r.
Qed.

(** ** Logging configuration *)

(** The development renderer is chosen exactly when [ENVIRONMENT] is not set
    or is "development" in any mix of cases; every other value, the empty
    one included, selects the JSON renderer. The renderer is the last stage
    of the chain. *)
Theorem development_mode_iff (ENVIRONMENT : option string) :
  (logger._is_development ENVIRONMENT = true
   <-> ENVIRONMENT = None
       \/ exists v, ENVIRONMENT = Some v
                    /\ Spec.eq_ci v "development" = true)
  /\ List.last (logger.processors (logger.configure_logging ENVIRONMENT))
               logger.add_log_level
     = (if logger._is_development ENVIRONMENT
        then logger.ConsoleRenderer else logger.JSONRenderer).
Proof.
  split; [|reflexivity].
  unfold logger._is_development. rewrite String.eqb_eq.
  destruct ENVIRONMENT as [v|]; simpl.
  - rewrite (lower_eq_ci v "development" eq_refl). split.
    + intros H. right. exists v. auto.
    + intros [H|(v' & [= <-] & H)]; [discriminate | exact H].
  - split; auto.
Qed.

Example environment_values :
  logger._is_development None = true
  /\ logger._is_development (Some "DeVeLoPmEnT") = true
  /\ logger._is_development (Some "") = false
  /\ logger._is_development (Some "dev") = false
  /\ logger._is_development (Some "production") = false.
Proof. repeat split. Qed.

(** ** Start-up *)

(** Without a key, or with an empty one, [bootstrap_app] raises
    [ValueError] after logging the error, and builds no application. With a
    key it returns an application whose two routes are the handlers over
    the service manager made of the OpenAI adapter and the FFmpeg
    adapter. *)
Theorem bootstrap_app_needs_key
    (env : Env) (openai_api_key : option string) (w : World) :
  (PyStr.truthy openai_api_key = false ->
   fst (bootstrap.bootstrap_app env openai_api_key w)
   = Raise (PyException
              "ValueError"
              "OPENAI_API_KEY no está configurada en las variables de entorno")
   /\ List.last (w_log (snd (bootstrap.bootstrap_app env openai_api_key w)))
                (mkLog DEBUG "" None)
      = mkLog ERROR
              "OPENAI_API_KEY no está configurada en las variables de entorno"
              None)
  /\ (PyStr.truthy openai_api_key = true ->
      exists app,
        fst (bootstrap.bootstrap_app env openai_api_key w) = Ok app
        /\ (forall file model w',
               fastapi_app.post_transcribe app file model w'
               = fastapi_app.serve fastapi_app.respond_transcribe
                   (fastapi_app.transcribe_media
                      (bootstrap.wired_service_manager env) file model) w')
        /\ (forall w',
               fastapi_app.get_health app w'
               = fastapi_app.serve fastapi_app.respond_dict
                   fastapi_app.health_check w')).
Proof.
  split; intros Hkey.
  - unfold bootstrap.bootstrap_app. rewrite !bind_log, Hkey.
    cbn [negb]. rewrite bind_log. unfold raise. cbn [fst snd log w_log].
    split; [reflexivity|]. apply last_last.
  - unfold bootstrap.bootstrap_app. rewrite !bind_log, Hkey. cbn [negb].
    eexists. split; [reflexivity|]. split; reflexivity.
Qed.

Lemma bootstrap_app_needs_key_witness :
  fst (bootstrap.bootstrap_app Sample.env_ok (Some "") Sample.w0)
  = Raise (PyException
             "ValueError"
             "OPENAI_API_KEY no está configurada en las variables de entorno")
  /\ exists app,
      fst (bootstrap.bootstrap_app Sample.env_ok (Some "sk-test") Sample.w0)
      = Ok app
      /\ fst (fastapi_app.get_health app Sample.w0)
         = mkHttpResponse 200 (JsonBody [("status", JStr "healthy")]).
Proof.
  destruct (bootstrap_app_needs_key Sample.env_ok (Some "") Sample.w0)
    as (Hmissing & _).
  destruct (bootstrap_app_needs_key Sample.env_ok (Some "sk-test") Sample.w0)
    as (_ & Hpresent).
  split.
  - apply Hmissing. reflexivity.
  - destruct (Hpresent eq_refl) as (app & Happ & _ & Hhealth).
    exists app. split; [exact Happ|]. rewrite Hhealth. reflexivity.
Defined.

(** ** Every exit path of the transcoding, event by event *)

Lemma upload_read_cases env up w :
  (exists e, upload_read env up w = (Raise e, w))
  \/ upload_read env up w
     = (Ok (rest_of up (w_pos w)),
        mkWorld (w_fs w) (Nat.max (w_pos w) (length (content up))) (w_tmp w)
                (w_trace w ++ [EvUploadRead (rest_of up (w_pos w))])
                (w_log w)).
Proof.
  destruct (env_fault env AtUploadRead) as [e|] eqn:Hf.
  - left. exists e. unfold upload_read, fault, bind. rewrite Hf. reflexivity.
  - right. apply upload_read_run, Hf.
Qed.

Lemma file_write_cases env path data w :
  (exists e, file_write env path data w = (Raise e, w))
  \/ (exists w',
        file_write env path data w = (Ok tt, w')
        /\ w_trace w' = (w_trace w ++ [EvFileWrite path data])%list
        /\ w_pos w' = w_pos w).
Proof.
  unfold file_write, fault, bind, emit, ret.
  destruct (env_fault env AtTempWrite) as [e|].
  - left. exists e. reflexivity.
  - right. cbv beta iota zeta. destruct (w_fs w !! path);
      eexists; repeat split.
Qed.

Lemma file_flush_cases env path w :
  (exists e, file_flush env path w = (Raise e, w))
  \/ file_flush env path w = (Ok tt, w).
Proof.
  unfold file_flush, fault. destruct (env_fault env AtTempFlush) as [e|];
    [left; exists e|right]; reflexivity.
Qed.

(** The tool is run once, whatever comes of it. *)
Lemma ffmpeg_try_cases env input output w :
  exists r w',
    try_except_if is_ffmpeg_Error
      (ffmpeg_run env input output)
      (fun e =>
         log ERROR "FFmpeg falló con error específico"
             (Some (FFmpegAudioExtractionAdapter.stderr_output e)) ;;
         raise e) w
    = (r, w')
    /\ w_trace w' = (w_trace w ++ [EvFfmpeg input output])%list.
Proof.
  unfold try_except_if, try_except, ffmpeg_run, bind, emit, log, raise.
  cbn [w_fs].
  destruct (w_fs w !! input) as [data|].
  - destruct (env_ffmpeg env data) as [out|stderr [part|]|[stderr|cls msg]];
      eexists; eexists; split; reflexivity.
  - eexists. eexists. split; reflexivity.
Qed.

Lemma open_read_cases env path w :
  (exists e, open_read env path w = (Raise e, w))
  \/ (exists data,
        open_read env path w
        = (Ok data,
           mkWorld (w_fs w) (w_pos w) (w_tmp w)
                   (w_trace w ++ [EvFileRead path data]) (w_log w))).
Proof.
  unfold open_read, fault, bind, ret, emit.
  destruct (env_fault env AtOutputOpen) as [e|]; [left; eauto|].
  cbv beta iota zeta.
  destruct (w_fs w !! path) as [data|]; [|left; eauto].
  destruct (env_fault env AtOutputRead) as [e|]; [left; eauto|].
  right. exists data. reflexivity.
Qed.

(** On every exit path, the events of the guarded body are the first few
    of: read the upload, write the input file, run the tool, read the
    output file; and what is written is what the upload holds after its
    current position. *)
Lemma guarded_body_trace env up i o w :
  exists n audio_content,
    w_trace (snd (FFmpegAudioExtractionAdapter.guarded_body env up i o w))
    = (w_trace w
       ++ take n (transcoding_steps i o (rest_of up (w_pos w)) audio_content))
      %list.
Proof.
  unfold FFmpegAudioExtractionAdapter.guarded_body.
  destruct (logged_reraise
              (FFmpegAudioExtractionAdapter.transcode_body env up i o)
              ERROR "Error durante extracción de audio con FFmpeg"
              (fun e => Some (exc_str e)) w) as (_ & _ & _ & _ & Htr).
  rewrite Htr. clear Htr.
  unfold FFmpegAudioExtractionAdapter.transcode_body. rewrite bind_log.
  set (w1 := snd (log INFO "Creando archivos temporales para extracción"
                      None w)).
  set (c := rest_of up (w_pos w)).
  destruct (upload_read_cases env up w1) as [[e He]|Hread].
  { rewrite (bind_raise _ _ _ _ _ He). exists 0, []. cbn [snd].
    symmetry. apply app_nil_r. }
  rewrite (bind_ok _ _ _ _ _ Hread). cbv beta.
  change (rest_of up (w_pos w1)) with c.
  match goal with |- context [bind (file_write _ _ _) _ ?x] => set (w2 := x) end.
  destruct (file_write_cases env i c w2) as [[e He]|(w3 & Hwrite & Ht3 & _)].
  { rewrite (bind_raise _ _ _ _ _ He). exists 1, []. cbn [snd]. reflexivity. }
  rewrite (bind_ok _ _ _ _ _ Hwrite). cbv beta.
  destruct (file_flush_cases env i w3) as [[e He]|Hflush].
  { rewrite (bind_raise _ _ _ _ _ He). exists 2, []. cbn [snd].
    rewrite Ht3. subst w2. cbn [w_trace]. rewrite <- app_assoc. reflexivity. }
  rewrite (bind_ok _ _ _ _ _ Hflush). cbv beta. rewrite !bind_log.
  match goal with
  | |- context [bind (try_except_if _ _ _) _ ?x] => set (w4 := x)
  end.
  destruct (ffmpeg_try_cases env i o w4) as ([u|e] & w5 & Hff & Ht5).
  2:{ rewrite (bind_raise _ _ _ _ _ Hff). exists 3, []. cbn [snd].
      rewrite Ht5. subst w4. cbn [snd log w_trace]. rewrite Ht3.
      subst w2. cbn [w_trace]. rewrite <- !app_assoc. reflexivity. }
  rewrite (bind_ok _ _ _ _ _ Hff). cbv beta.
  destruct (open_read_cases env o w5) as [[e He]|(d & Hopen)].
  { rewrite (bind_raise _ _ _ _ _ He). exists 3, []. cbn [snd].
    rewrite Ht5. subst w4. cbn [snd log w_trace]. rewrite Ht3.
    subst w2. cbn [w_trace]. rewrite <- !app_assoc. reflexivity. }
  rewrite (bind_ok _ _ _ _ _ Hopen). cbv beta. rewrite !bind_log.
  exists 4, d. unfold ret. cbn [snd log w_trace]. rewrite Ht5.
  subst w4. cbn [snd log w_trace]. rewrite Ht3.
  subst w2. cbn [w_trace]. rewrite <- !app_assoc. reflexivity.
Qed.

(** On every exit path, the events of the transcoding path are: nothing,
    when no temporary file could be created; one creation, when only the
    input file could; or the two creations, the first few steps of the
    body, and the two removals. *)
Lemma extract_with_ffmpeg_trace env up w :
  events_of (FFmpegAudioExtractionAdapter._extract_audio_with_ffmpeg env up) w
  = []
  \/ (exists e i,
        fst (FFmpegAudioExtractionAdapter._extract_audio_with_ffmpeg env up w)
        = Raise e
        /\ events_of
             (FFmpegAudioExtractionAdapter._extract_audio_with_ffmpeg env up) w
           = [EvTmpCreate i])
  \/ (exists i o n audio_content,
        i <> o
        /\ events_of
             (FFmpegAudioExtractionAdapter._extract_audio_with_ffmpeg env up) w
           = ([EvTmpCreate i; EvTmpCreate o]
              ++ take n (transcoding_steps
                           i o (rest_of up (w_pos w)) audio_content)
              ++ [EvUnlink i; EvUnlink o])%list).
Proof.
  unfold events_of.
  destruct (extract_with_ffmpeg_run env up w)
    as [(e & _ & Ht & _)
       |[(e & i & Hr & Ht & _)
        |(i & o & w3 & w4 & r & _ & _ & Hne & _ & Hp3 & Ht3 & Hbody & _
          & _ & _ & Ht)]].
  - left. apply new_events_app. rewrite Ht. symmetry. apply app_nil_r.
  - right. left. exists e, i. split; [exact Hr|].
    apply new_events_app. exact Ht.
  - right. right.
    destruct (guarded_body_trace env up i o w3) as (n & d & Ht4).
    rewrite Hbody in Ht4. cbn [snd] in Ht4. rewrite Hp3 in Ht4.
    exists i, o, n, d. split; [exact Hne|].
    apply new_events_app. rewrite Ht, Ht4, Ht3.
    rewrite <- !app_assoc. reflexivity.
Qed.

(** *** Files other than the two temporary ones *)

#[local] Instance same_outside_preorder (i o : string) :
  PreOrder (same_outside i o).
Proof.
  split.
  - intros w p _ _. reflexivity.
  - intros w1 w2 w3 H1 H2 p Hi Ho. rewrite (H2 p Hi Ho). apply H1; auto.
Qed.

Lemma same_outside_same_fs i o (w w' : World) :
  w_fs w' = w_fs w -> same_outside i o w w'.
Proof. intros H p _ _. rewrite H. reflexivity. Qed.

Lemma outside_log i o lvl event detail :
  preserves (same_outside i o) (log lvl event detail).
Proof. intros w. apply same_outside_same_fs. reflexivity. Qed.

Lemma outside_emit i o ev : preserves (same_outside i o) (emit ev).
Proof. intros w. apply same_outside_same_fs. reflexivity. Qed.

Lemma outside_upload_read i o env up :
  preserves (same_outside i o) (upload_read env up).
Proof.
  intros w. destruct (upload_read_cases env up w) as [[e ->]| ->];
    apply same_outside_same_fs; reflexivity.
Qed.

Lemma outside_file_write i o env data :
  preserves (same_outside i o) (file_write env i data).
Proof.
  intros w p Hi _. unfold file_write, fault, bind, emit, ret.
  destruct (env_fault env AtTempWrite); [reflexivity|].
  cbv beta iota zeta. destruct (w_fs w !! i); cbn [snd w_fs set_fs];
    [|reflexivity].
  apply lookup_insert_ne. auto.
Qed.

Lemma outside_ffmpeg_run i o env :
  preserves (same_outside i o) (ffmpeg_run env i o).
Proof.
  intros w p _ Ho. unfold ffmpeg_run, bind, emit. cbn [w_fs].
  destruct (w_fs w !! i) as [data|]; [|reflexivity].
  destruct (env_ffmpeg env data) as [out|stderr [part|]|e];
    cbn [snd w_fs set_fs]; try reflexivity; apply lookup_insert_ne; auto.
Qed.

Lemma outside_open_read i o env path :
  preserves (same_outside i o) (open_read env path).
Proof.
  intros w. destruct (open_read_cases env path w) as [[e ->]|(d & ->)];
    apply same_outside_same_fs; reflexivity.
Qed.

#[local] Hint Resolve outside_log outside_emit outside_upload_read
  outside_file_write outside_ffmpeg_run outside_open_read : pipeline.

(** The guarded body touches no file but the two temporary ones. *)
Lemma outside_guarded_body env up i o :
  preserves (same_outside i o)
    (FFmpegAudioExtractionAdapter.guarded_body env up i o).
Proof.
  unfold FFmpegAudioExtractionAdapter.guarded_body,
    FFmpegAudioExtractionAdapter.transcode_body, file_flush.
  pres.
Qed.

(** *** The adapter around an extraction service *)

(** For any extraction service: after an extraction that returns, the
    adapter makes one remote call, with the name and the stream returned,
    and its outcome is the outcome of that call; after an extraction that
    raises, it makes no call and raises the same exception. *)
Lemma transcribe_from_upload_after_extraction
    env (service : AudioExtractionService) up model w :
  w_trace (snd (OpenAITranscriptionAdapter.transcribe_from_upload
                  env (Some service) up model w))
  = (w_trace
       (snd (extract_audio_stream service up
               (snd (log INFO "Extrayendo audio del archivo" None
                       (snd (log INFO "Iniciando transcripción con OpenAI"
                                 None w))))))
     ++ call_after up model
          (fst (extract_audio_stream service up
                  (snd (log INFO "Extrayendo audio del archivo" None
                          (snd (log INFO "Iniciando transcripción con OpenAI"
                                    None w))))))
          (snd (extract_audio_stream service up
                  (snd (log INFO "Extrayendo audio del archivo" None
                          (snd (log INFO "Iniciando transcripción con OpenAI"
                                    None w)))))))%list
  /\ fst (OpenAITranscriptionAdapter.transcribe_from_upload
            env (Some service) up model w)
     = match fst (extract_audio_stream service up
                    (snd (log INFO "Extrayendo audio del archivo" None
                            (snd (log INFO "Iniciando transcripción con OpenAI"
                                      None w)))))
       with
       | Ok (audio_stream, file_name) =>
           env_openai env model file_name
             (payload_of up audio_stream
                (snd (extract_audio_stream service up
                        (snd (log INFO "Extrayendo audio del archivo" None
                                (snd (log INFO
                                          "Iniciando transcripción con OpenAI"
                                          None w)))))))
       | Raise e => Raise e
       end
  /\ w_fs (snd (OpenAITranscriptionAdapter.transcribe_from_upload
                  env (Some service) up model w))
     = w_fs
         (snd (extract_audio_stream service up
                 (snd (log INFO "Extrayendo audio del archivo" None
                         (snd (log INFO "Iniciando transcripción con OpenAI"
                                   None w)))))).
Proof.
  unfold OpenAITranscriptionAdapter.transcribe_from_upload.
  rewrite bind_log.
  set (w1 := snd (log INFO "Iniciando transcripción con OpenAI" None w)).
  match goal with
  | |- context [try_except ?m ?h w1] =>
      destruct (logged_reraise m ERROR "Error en transcripción de OpenAI"
                  (fun e => Some (exc_str e)) w1)
        as (Hfst & Hfs & _ & _ & Htr);
      rewrite Hfst, Htr, Hfs; clear Hfst Htr Hfs
  end.
  set (w2 := snd (log INFO "Extrayendo audio del archivo" None w1)).
  destruct (extract_audio_stream service up w2) as [[[s n]|e] w3] eqn:Hrun;
    cbn [fst snd call_after].
  - assert (Hinner :
      (log INFO "Extrayendo audio del archivo" None ;;
       r <- extract_audio_stream service up ;;
       log INFO "Audio extraído exitosamente" None ;;
       ret r) w1
      = (Ok (s, n), snd (log INFO "Audio extraído exitosamente" None w3))).
    { rewrite bind_log. fold w2. unfold bind at 1. rewrite Hrun. reflexivity. }
    rewrite (bind_ok _ _ _ _ _ Hinner). cbv beta iota. rewrite bind_log.
    match goal with
    | |- context [bind (transcriptions_create _ _ _ _ _) _ ?x] =>
        set (w4 := x)
    end.
    match goal with
    | |- context [bind ?m _ w4] =>
        destruct (logged_result m INFO "Transcripción de OpenAI completada"
                    None w4) as (Hfst & Hfs & _ & _ & Htr);
        rewrite Hfst, Htr, Hfs; clear Hfst Htr Hfs
    end.
    destruct (transcriptions_create_run env up model n s w4)
      as (w5 & Hcreate & Hfs5 & Htr5).
    rewrite Hcreate. cbn [fst snd]. rewrite Htr5, Hfs5.
    subst w4. cbn [snd log w_trace w_pos w_fs]. repeat split.
  - assert (Hinner :
      (log INFO "Extrayendo audio del archivo" None ;;
       r <- extract_audio_stream service up ;;
       log INFO "Audio extraído exitosamente" None ;;
       ret r) w1
      = (Raise e, w3)).
    { rewrite bind_log. fold w2. unfold bind at 1. rewrite Hrun. reflexivity. }
    rewrite (bind_raise _ _ _ _ _ Hinner). cbn [fst snd].
    split; [symmetry; apply app_nil_r | split; reflexivity].
Qed.

(** ** The temporary directory *)

(** A call of the transcoding path that created its two temporary files
    leaves the directory exactly as it found it, on every exit path: the
    two files are gone and no other file was created, changed or removed. *)
Theorem temporary_directory_restored
    (env : Env) (uploaded_file : UploadFile) (w : World)
    (input_temp output_temp : string) :
  created
    (events_of
       (FFmpegAudioExtractionAdapter._extract_audio_with_ffmpeg
          env uploaded_file) w)
  = [input_temp; output_temp] ->
  w_fs (snd (FFmpegAudioExtractionAdapter._extract_audio_with_ffmpeg
               env uploaded_file w))
  = w_fs w.
Proof.
  unfold events_of.
  destruct (extract_with_ffmpeg_run env uploaded_file w)
    as [(e & _ & Ht & _)
       |[(e & i & _ & Ht & _)
        |(i & o & w3 & w4 & r & Hi & Ho & Hne & Hf3 & _ & _ & Hbody & _
          & Hfs & _)]].
  - rewrite (new_events_app _ _ []) by (rewrite Ht, app_nil_r; reflexivity).
    discriminate.
  - rewrite (new_events_app _ _ _ Ht). discriminate.
  - intros _. rewrite Hfs.
    pose proof (outside_guarded_body env uploaded_file i o w3) as Hout.
    rewrite Hbody in Hout. cbn [snd] in Hout.
    apply map_eq. intros p.
    destruct (decide (p = o)) as [->|Hpo].
    { rewrite lookup_delete_eq. symmetry. exact Ho. }
    rewrite lookup_delete_ne by auto.
    destruct (decide (p = i)) as [->|Hpi].
    { rewrite lookup_delete_eq. symmetry. exact Hi. }
    rewrite lookup_delete_ne by auto.
    rewrite (Hout p Hpi Hpo), Hf3.
    rewrite !lookup_insert_ne by auto. reflexivity.
Qed.

Lemma temporary_directory_restored_witness :
  w_fs (snd (FFmpegAudioExtractionAdapter._extract_audio_with_ffmpeg
               Sample.env_ffmpeg_fails Sample.clip
               (set_fs {["/tmp/other" := Sample.data]} Sample.w0)))
  = {["/tmp/other" := Sample.data]}.
Proof.
  exact (temporary_directory_restored
           Sample.env_ffmpeg_fails Sample.clip
           (set_fs {["/tmp/other" := Sample.data]} Sample.w0)
           "/tmp/tmpa.mp4" "/tmp/tmpb.mp3" eq_refl).
Defined.

(** When the input file was created and no name can be had for the output
    file, the call raises before the [try] is entered: the upload is not
    read, the tool is not run, and the empty input file stays behind. *)
Theorem input_file_left_when_output_cannot_be_created
    (env : Env) (uploaded_file : UploadFile) (w : World) (r1 : string) :
  env_tmp_name env (w_tmp w) = Some r1 ->
  w_fs w !! tmp_path r1 (PurePath.suffix
                           (PyStr.or_default (filename uploaded_file) ""))
  = None ->
  env_tmp_name env (S (w_tmp w)) = None ->
  fst (FFmpegAudioExtractionAdapter._extract_audio_with_ffmpeg
         env uploaded_file w)
  = Raise (PyException "OSError" "No usable temporary file name found")
  /\ events_of (FFmpegAudioExtractionAdapter._extract_audio_with_ffmpeg
                  env uploaded_file) w
     = [EvTmpCreate
          (tmp_path r1 (PurePath.suffix
                          (PyStr.or_default (filename uploaded_file) "")))]
  /\ w_fs (snd (FFmpegAudioExtractionAdapter._extract_audio_with_ffmpeg
                  env uploaded_file w))
     = <[tmp_path r1 (PurePath.suffix
                        (PyStr.or_default (filename uploaded_file) ""))
         := []]> (w_fs w).
Proof.
  intros Hr1 Hfree Hr2. unfold events_of.
  unfold FFmpegAudioExtractionAdapter._extract_audio_with_ffmpeg.
  rewrite bind_log.
  erewrite (bind_ok _ _ _ _ (tmp_path r1 _));
    [|apply NamedTemporaryFile_run; [exact Hr1 | exact Hfree]].
  cbv beta.
  erewrite bind_raise.
  2:{ unfold NamedTemporaryFile. cbn [snd log w_tmp]. rewrite Hr2.
      reflexivity. }
  cbn [fst snd set_tmp log w_fs w_trace].
  split; [reflexivity|]. split; [|reflexivity].
  apply new_events_app. reflexivity.
Qed.

Lemma input_file_left_witness :
  fst (FFmpegAudioExtractionAdapter._extract_audio_with_ffmpeg
         Sample.env_one_name Sample.clip Sample.w0)
  = Raise (PyException "OSError" "No usable temporary file name found")
  /\ events_of (FFmpegAudioExtractionAdapter._extract_audio_with_ffmpeg
                  Sample.env_one_name Sample.clip) Sample.w0
     = [EvTmpCreate "/tmp/tmpa.mp4"]
  /\ w_fs (snd (FFmpegAudioExtractionAdapter._extract_audio_with_ffmpeg
                  Sample.env_one_name Sample.clip Sample.w0))
     = <["/tmp/tmpa.mp4" := []]> ∅.
Proof.
  apply (input_file_left_when_output_cannot_be_created
           Sample.env_one_name Sample.clip Sample.w0 "a"); reflexivity.
Defined.

(** ** The upload is not rewound before a transcoding *)

Lemma in_take {A} (x : A) (n : nat) (l : list A) :
  In x (take n l) -> In x l.
Proof.
  revert n. induction l as [|a l IH]; intros [|n]; simpl; try tauto.
  intros [H|H]; [left; exact H | right; exact (IH n H)].
Qed.

(** Whatever is written to a temporary file during a transcoding is what
    the upload holds after the position at which its stream stood when the
    call began; when the stream stands at its end, that is nothing. *)
Theorem transcoding_reads_from_current_position
    (env : Env) (uploaded_file : UploadFile) (w : World)
    (path : string) (data : bytes) :
  In (EvFileWrite path data)
     (events_of (FFmpegAudioExtractionAdapter._extract_audio_with_ffmpeg
                   env uploaded_file) w) ->
  data = drop (w_pos w) (content uploaded_file)
  /\ (length (content uploaded_file) <= w_pos w -> data = []).
Proof.
  intros Hin.
  assert (Hdata : data = drop (w_pos w) (content uploaded_file)).
  { destruct (extract_with_ffmpeg_trace env uploaded_file w)
      as [Hev|[(e & i & _ & Hev)|(i & o & n & d & _ & Hev)]];
      rewrite Hev in Hin.
    - destruct Hin.
    - destruct Hin as [H|[]]. discriminate.
    - apply in_app_or in Hin as [[Hin|[Hin|[]]]|Hin]; try discriminate.
      apply in_app_or in Hin as [Hin|[Hin|[Hin|[]]]]; try discriminate.
      apply in_take in Hin. unfold transcoding_steps, rest_of in Hin.
      destruct Hin as [Hin|[Hin|[Hin|[Hin|[]]]]]; try discriminate.
      injection Hin as _ Hd. auto. }
  split; [exact Hdata|].
  intros Hlen. rewrite Hdata. apply drop_ge. exact Hlen.
Qed.

Lemma transcoding_reads_from_current_position_witness :
  [Byte.x02] = drop 1 (content Sample.clip)
  /\ (length (content Sample.clip) <= 1 -> [Byte.x02] = []).
Proof.
  apply (transcoding_reads_from_current_position
           Sample.env_ok Sample.clip (set_pos 1 Sample.w0)
           "/tmp/tmpa.mp4" [Byte.x02]).
  vm_compute. tauto.
Defined.

(** ** One tool run and one remote call at most, in that order *)

(** The events of a transcoding that returns. *)
Lemma extract_success_events env up w audio_stream audio_filename :
  fst (FFmpegAudioExtractionAdapter._extract_audio_with_ffmpeg env up w)
  = Ok (audio_stream, audio_filename) ->
  exists i o audio_content,
    audio_stream = BytesIO audio_content
    /\ audio_filename
       = PurePath.stem (PyStr.or_default (filename up) "audio") ++ ".mp3"
    /\ env_ffmpeg env (rest_of up (w_pos w)) = FfmpegDone audio_content
    /\ events_of
         (FFmpegAudioExtractionAdapter._extract_audio_with_ffmpeg env up) w
       = ([EvTmpCreate i; EvTmpCreate o]
          ++ transcoding_steps i o (rest_of up (w_pos w)) audio_content
          ++ [EvUnlink i; EvUnlink o])%list.
Proof.
  intros Hok. unfold events_of.
  destruct (extract_with_ffmpeg_run env up w)
    as [(e & Hr & _)
       |[(e & i & Hr & _)
        |(i & o & w3 & w4 & r & _ & _ & Hne & Hf3 & Hp3 & Ht3 & Hbody & Hr
          & _ & _ & Ht)]]; try congruence.
  rewrite Hok in Hr. subst r.
  apply guarded_body_success in Hbody as (Hn & data & Hs & Hff & Ht4);
    [|exact Hne|rewrite Hf3, lookup_insert_ne, lookup_insert_eq; auto].
  rewrite Hp3 in Hff, Ht4.
  exists i, o, data. repeat split; auto.
  apply new_events_app. rewrite Ht, Ht4, Ht3.
  unfold transcoding_steps. rewrite <- !app_assoc. reflexivity.
Qed.

(** The pipeline as wired, on an upload that needs transcoding: its events
    are those of the transcoding, followed by the remote call if the
    transcoding returned; the transcoding starts from a world that differs
    from the initial one in the log only. *)
Lemma wired_transcoding_events env up model w :
  media_prober up = NeedsTranscoding ->
  exists w',
    log_only w w'
    /\ events_of (OpenAITranscriptionAdapter.transcribe_from_upload
                    env (Some (FFmpegAudioExtractionAdapter.new env)) up model)
                 w
       = (events_of
            (FFmpegAudioExtractionAdapter._extract_audio_with_ffmpeg env up) w'
          ++ call_after up model
               (fst (FFmpegAudioExtractionAdapter._extract_audio_with_ffmpeg
                       env up w'))
               (snd (FFmpegAudioExtractionAdapter._extract_audio_with_ffmpeg
                       env up w')))%list
    /\ fst (OpenAITranscriptionAdapter.transcribe_from_upload
              env (Some (FFmpegAudioExtractionAdapter.new env)) up model w)
       = match fst (FFmpegAudioExtractionAdapter._extract_audio_with_ffmpeg
                      env up w')
         with
         | Ok (audio_stream, file_name) =>
             env_openai env model file_name
               (payload_of up audio_stream
                  (snd (FFmpegAudioExtractionAdapter._extract_audio_with_ffmpeg
                          env up w')))
         | Raise e => Raise e
         end
    /\ w_fs (snd (OpenAITranscriptionAdapter.transcribe_from_upload
                    env (Some (FFmpegAudioExtractionAdapter.new env))
                    up model w))
       = w_fs (snd (FFmpegAudioExtractionAdapter._extract_audio_with_ffmpeg
                      env up w')).
Proof.
  intros Hneeds.
  destruct (transcribe_from_upload_after_extraction
              env (FFmpegAudioExtractionAdapter.new env) up model w)
    as (Htr & Hfst & Hfs).
  cbn [extract_audio_stream FFmpegAudioExtractionAdapter.new] in Htr, Hfst, Hfs.
  rewrite extract_audio_stream_by_class, Hneeds in Htr, Hfst, Hfs.
  rewrite !bind_log in Htr, Hfst, Hfs.
  match type of Hfs with
  | _ = w_fs (snd (_ ?x)) => set (w' := x) in *
  end.
  exists w'. split; [repeat split|]. split; [|split; [exact Hfst | exact Hfs]].
  destruct (grows_extract_with_ffmpeg (fun _ => true) ltac:(reflexivity)
              env up w') as (evs & Hevs & _).
  unfold events_of. rewrite (new_events_app _ _ _ Hevs).
  apply new_events_app. rewrite Htr, Hevs.
  subst w'. cbn [snd log w_trace]. symmetry. apply app_assoc.
Qed.

Lemma steps_counts n i o c d :
  length (List.filter is_tool_run (take n (transcoding_steps i o c d))) <= 1
  /\ openai_calls (take n (transcoding_steps i o c d)) = []
  /\ created (take n (transcoding_steps i o c d)) = [].
Proof.
  unfold transcoding_steps.
  destruct n as [|[|[|[|[|n]]]]]; simpl; repeat split; try reflexivity; lia.
Qed.

Lemma call_after_counts up model r w :
  List.filter is_tool_run (call_after up model r w) = []
  /\ length (openai_calls (call_after up model r w)) <= 1
  /\ created (call_after up model r w) = [].
Proof.
  destruct r as [[s n]|e]; simpl; repeat split; try reflexivity; lia.
Qed.


(** Whenever the remote API is called for an upload that needs transcoding,
    the whole sequence has taken place before the call: two temporary
    files created, the upload read and written to the input file, the tool
    run once with success, the output file read, and both files removed;
    the call carries the tool's output under the ".mp3" name. *)
Theorem remote_call_follows_cleanup
    (env : Env) (uploaded_file : UploadFile) (model : string) (w : World) :
  media_prober uploaded_file = NeedsTranscoding ->
  openai_calls
    (events_of (ServiceManager.transcribe_media
                  (bootstrap.wired_service_manager env) uploaded_file model) w)
  <> [] ->
  exists input_temp output_temp audio_content,
    env_ffmpeg env (drop (w_pos w) (content uploaded_file))
    = FfmpegDone audio_content
    /\ events_of (ServiceManager.transcribe_media
                    (bootstrap.wired_service_manager env) uploaded_file model)
                 w
       = [EvTmpCreate input_temp; EvTmpCreate output_temp;
          EvUploadRead (drop (w_pos w) (content uploaded_file));
          EvFileWrite input_temp (drop (w_pos w) (content uploaded_file));
          EvFfmpeg input_temp output_temp;
          EvFileRead output_temp audio_content;
          EvUnlink input_temp; EvUnlink output_temp;
          EvOpenAI model
            (PurePath.stem (PyStr.or_default (filename uploaded_file) "audio")
             ++ ".mp3")
            audio_content].
Proof.
  intros Hneeds. rewrite events_of_service_manager.
  change (transcribe_from_upload _)
    with (OpenAITranscriptionAdapter.transcribe_from_upload
            env (Some (FFmpegAudioExtractionAdapter.new env))).
  destruct (wired_transcoding_events
              env uploaded_file model
              (snd (log INFO "Iniciando transcripción de archivo" None w))
              Hneeds) as (w' & (_ & Hpos & _) & Hev & _).
  cbn [snd log w_pos] in Hpos.
  rewrite Hev. clear Hev.
  destruct (FFmpegAudioExtractionAdapter._extract_audio_with_ffmpeg
              env uploaded_file w') as [[[s n]|e] w''] eqn:Hrun.
  - intros _.
    destruct (extract_success_events env uploaded_file w' s n)
      as (i & o & d & -> & -> & Hff & Hev); [rewrite Hrun; reflexivity|].
    rewrite Hpos in Hff, Hev. unfold rest_of in Hff, Hev.
    exists i, o, d. split; [exact Hff|]. rewrite Hev. reflexivity.
  - intros Hcalls. exfalso. apply Hcalls.
    destruct (grows_extract_with_ffmpeg
                (fun ev => negb (is_openai_call ev))
                ltac:(intros ev H; cbv beta; rewrite H; reflexivity)
                env uploaded_file w') as (evs & Htr & Hevs).
    unfold events_of. rewrite (new_events_app _ _ _ Htr).
    cbn [fst call_after]. rewrite app_nil_r.
    apply openai_calls_none, Hevs.
Qed.

Lemma remote_call_follows_cleanup_witness :
  exists input_temp output_temp audio_content,
    env_ffmpeg Sample.env_ok (drop (w_pos Sample.w0) (content Sample.clip))
    = FfmpegDone audio_content
    /\ events_of (ServiceManager.transcribe_media
                    (bootstrap.wired_service_manager Sample.env_ok)
                    Sample.clip "whisper-1")
                 Sample.w0
       = [EvTmpCreate input_temp; EvTmpCreate output_temp;
          EvUploadRead (drop (w_pos Sample.w0) (content Sample.clip));
          EvFileWrite input_temp
                      (drop (w_pos Sample.w0) (content Sample.clip));
          EvFfmpeg input_temp output_temp;
          EvFileRead output_temp audio_content;
          EvUnlink input_temp; EvUnlink output_temp;
          EvOpenAI "whisper-1"
            (PurePath.stem (PyStr.or_default (filename Sample.clip) "audio")
             ++ ".mp3")
            audio_content].
Proof.
  apply (remote_call_follows_cleanup
           Sample.env_ok Sample.clip "whisper-1" Sample.w0).
  - reflexivity.
  - vm_compute. discriminate.
Defined.

(** ** Any extraction service behind the adapter *)



(** ** A failing tool, end to end *)

Lemma bind_raise_fst {A B} (m : M A) (f : A -> M B) (w : World) (e : Exc) :
  fst (m w) = Raise e -> fst (bind m f w) = Raise e.
Proof.
  unfold bind. destruct (m w) as [[a|e'] w1]; simpl.
  - discriminate.
  - intros [= ->]. reflexivity.
Qed.

Lemma try_if_reraise_fst {A} sel (m : M A) lvl event
    (detail : Exc -> option string) (w : World) :
  fst (try_except_if sel m (fun e => log lvl event (detail e) ;; raise e) w)
  = fst (m w).
Proof.
  unfold try_except_if, try_except.
  destruct (m w) as [[a|e] w1]; [reflexivity|]. destruct (sel e); reflexivity.
Qed.

(** With the upload read and written without fault and a tool that exits
    with an error, the guarded body raises the tool's error. *)
Lemma guarded_body_tool_fails env up i o w stderr written :
  env_fault env AtUploadRead = None ->
  env_fault env AtTempWrite = None ->
  env_fault env AtTempFlush = None ->
  w_fs w !! i = Some [] ->
  env_ffmpeg env (rest_of up (w_pos w)) = FfmpegFailed stderr written ->
  fst (FFmpegAudioExtractionAdapter.guarded_body env up i o w)
  = Raise (ffmpeg_Error stderr).
Proof.
  intros Hread Hwrite Hflush Hi Hout.
  unfold FFmpegAudioExtractionAdapter.guarded_body.
  rewrite (proj1 (logged_reraise _ ERROR _ (fun e => Some (exc_str e)) w)).
  unfold FFmpegAudioExtractionAdapter.transcode_body.
  rewrite bind_log.
  rewrite (bind_ok _ _ _ _ _ (upload_read_run env up _ Hread)).
  cbv beta. cbn [snd log w_fs w_pos w_tmp w_trace w_log].
  erewrite (bind_ok _ _ _ _ tt);
    [|apply file_write_run with (old := []); [exact Hwrite | exact Hi]].
  cbv beta.
  rewrite (bind_ok _ _ _ _ _ (file_flush_run env i _ Hflush)).
  cbv beta. rewrite !bind_log. cbn [snd log w_fs w_pos w_tmp w_trace w_log].
  apply bind_raise_fst.
  rewrite (try_if_reraise_fst _ _ ERROR _
             (fun e => Some (FFmpegAudioExtractionAdapter.stderr_output e))).
  unfold ffmpeg_run, bind, emit. cbn [w_fs].
  rewrite lookup_insert_eq. cbn [app]. rewrite Hout.
  destruct written; reflexivity.
Qed.

(** Removing the two temporary files from a directory that otherwise
    agrees with the original one, in which they did not exist, gives the
    original directory. *)
Lemma removing_both_restores (fs fs' : gmap string bytes) (i o : string) :
  fs !! i = None -> fs !! o = None ->
  (forall p, p <> i -> p <> o -> fs' !! p = fs !! p) ->
  delete o (delete i fs') = fs.
Proof.
  intros Hi Ho Hout. apply map_eq. intros p.
  destruct (decide (p = o)) as [->|Hpo].
  { rewrite lookup_delete_eq. symmetry. exact Ho. }
  rewrite lookup_delete_ne by auto.
  destruct (decide (p = i)) as [->|Hpi].
  { rewrite lookup_delete_eq. symmetry. exact Hi. }
  rewrite lookup_delete_ne by auto. apply Hout; auto.
Qed.

(** With two fresh temporary names, the transcoding path enters its guarded
    body with both files in place; its outcome is the outcome of the body,
    and the directory is restored. *)
Lemma extract_with_fresh_names env up w r1 r2 :
  env_tmp_name env (w_tmp w) = Some r1 ->
  env_tmp_name env (S (w_tmp w)) = Some r2 ->
  w_fs w !! tmp_path r1 (PurePath.suffix (PyStr.or_default (filename up) ""))
  = None ->
  w_fs w !! tmp_path r2 ".mp3" = None ->
  tmp_path r1 (PurePath.suffix (PyStr.or_default (filename up) ""))
  <> tmp_path r2 ".mp3" ->
  exists w3,
    w_pos w3 = w_pos w
    /\ w_fs w3
         !! tmp_path r1 (PurePath.suffix (PyStr.or_default (filename up) ""))
       = Some []
    /\ fst (FFmpegAudioExtractionAdapter._extract_audio_with_ffmpeg env up w)
       = fst (FFmpegAudioExtractionAdapter.guarded_body
                env up
                (tmp_path r1 (PurePath.suffix
                                (PyStr.or_default (filename up) "")))
                (tmp_path r2 ".mp3") w3)
    /\ w_fs (snd (FFmpegAudioExtractionAdapter._extract_audio_with_ffmpeg
                    env up w))
       = w_fs w.
Proof.
  intros Hr1 Hr2 Hfree1 Hfree2 Hne.
  set (i := tmp_path r1 (PurePath.suffix (PyStr.or_default (filename up) "")))
    in *.
  set (o := tmp_path r2 ".mp3") in *.
  unfold FFmpegAudioExtractionAdapter._extract_audio_with_ffmpeg.
  rewrite bind_log.
  erewrite (bind_ok _ _ _ _ i);
    [|apply NamedTemporaryFile_run; [exact Hr1 | exact Hfree1]].
  cbv beta. cbn [snd log w_fs w_pos w_tmp w_trace w_log].
  erewrite (bind_ok _ _ _ _ o).
  2:{ apply NamedTemporaryFile_run; cbn [w_tmp w_fs]; [exact Hr2|].
      rewrite lookup_insert_ne by exact Hne. exact Hfree2. }
  cbv beta. cbn [w_fs w_pos w_tmp w_trace w_log].
  match goal with
  | |- context [try_finally _ _ ?x] => set (w3 := x)
  end.
  assert (Hi3 : w_fs w3 !! i = Some []).
  { subst w3. cbn [w_fs]. rewrite lookup_insert_ne by auto.
    apply lookup_insert_eq. }
  assert (Ho3 : w_fs w3 !! o = Some []).
  { subst w3. cbn [w_fs]. apply lookup_insert_eq. }
  exists w3. split; [reflexivity|]. split; [exact Hi3|].
  pose proof (kept_guarded_body env up i o w3) as Hkept.
  pose proof (outside_guarded_body env up i o w3) as Hout.
  unfold try_finally.
  destruct (FFmpegAudioExtractionAdapter.guarded_body env up i o w3)
    as [r w4].
  cbn [fst snd] in Hkept, Hout |- *.
  rewrite cleanup_removes;
    [|exact Hne | apply Hkept; exists []; exact Hi3
     | apply Hkept; exists []; exact Ho3].
  cbn [fst snd w_fs]. split; [reflexivity|].
  apply removing_both_restores; [exact Hfree1 | exact Hfree2|].
  intros p Hpi Hpo. rewrite (Hout p Hpi Hpo). subst w3. cbn [w_fs].
  rewrite !lookup_insert_ne by auto. reflexivity.
Qed.

(** The scenario of a failing tool, for every upload that passes the
    content-type check and needs transcoding: when the temporary files can
    be created, the upload is read and written without fault and the tool
    exits with an error, the request is answered with the fixed 500 answer,
    the remote API is not called, and the temporary directory is as
    before. *)
Theorem tool_failure_is_answered_500
    (env : Env) (file : UploadFile) (model : option string) (w : World)
    (r1 r2 : string) (stderr : option string) (written : option bytes) :
  fastapi_app.rejected_content_type (content_type file) = false ->
  media_prober file = NeedsTranscoding ->
  env_fault env AtUploadRead = None ->
  env_fault env AtTempWrite = None ->
  env_fault env AtTempFlush = None ->
  env_tmp_name env (w_tmp w) = Some r1 ->
  env_tmp_name env (S (w_tmp w)) = Some r2 ->
  w_fs w !! tmp_path r1 (PurePath.suffix (PyStr.or_default (filename file) ""))
  = None ->
  w_fs w !! tmp_path r2 ".mp3" = None ->
  tmp_path r1 (PurePath.suffix (PyStr.or_default (filename file) ""))
  <> tmp_path r2 ".mp3" ->
  env_ffmpeg env (drop (w_pos w) (content file)) = FfmpegFailed stderr written ->
  fst (fastapi_app.serve fastapi_app.respond_transcribe
         (fastapi_app.transcribe_media
            (bootstrap.wired_service_manager env) file model) w)
  = mkHttpResponse 500 (JsonBody Spec.generic_error_body)
  /\ openai_calls
       (events_of (fastapi_app.transcribe_media
                     (bootstrap.wired_service_manager env) file model) w)
     = []
  /\ w_fs (snd (fastapi_app.transcribe_media
                  (bootstrap.wired_service_manager env) file model w))
     = w_fs w.
Proof.
  intros Hvalid Hneeds Hread Hwrite Hflush Hr1 Hr2 Hfree1 Hfree2 Hne Hout.
  set (m := default fastapi_app.default_model model).
  set (w2 := snd (log INFO "Iniciando transcripción de archivo" None
                 (snd (log INFO "Recibida solicitud de transcripción"
                           None w)))).
  destruct (wired_transcoding_events env file m w2 Hneeds)
    as (w' & (Hfs' & Hpos' & Htmp' & Htr') & Hev & Hfst & Hfs).
  cbn [snd log w_fs w_pos w_tmp w_trace] in Hfs', Hpos', Htmp', Htr'.
  destruct (extract_with_fresh_names env file w' r1 r2)
    as (w3 & Hpos3 & Hi3 & Hbody & Hrestored);
    try (rewrite ?Htmp', ?Hfs'; assumption).
  assert (Hraise :
    fst (FFmpegAudioExtractionAdapter._extract_audio_with_ffmpeg env file w')
    = Raise (ffmpeg_Error stderr)).
  { rewrite Hbody.
    apply (guarded_body_tool_fails env file _ _ w3 stderr written);
      auto.
    unfold rest_of. rewrite Hpos3, Hpos'. exact Hout. }
  rewrite Hraise in Hfst, Hev. cbn [call_after] in Hev.
  rewrite app_nil_r in Hev.
  (* the service manager and the handler around the adapter *)
  destruct (service_manager_run
              (bootstrap.wired_service_manager env) file m
              (snd (log INFO "Recibida solicitud de transcripción" None w)))
    as (Hsm & Hsmfs & _).
  change (transcribe_from_upload _)
    with (OpenAITranscriptionAdapter.transcribe_from_upload
            env (Some (FFmpegAudioExtractionAdapter.new env)))
    in Hsm, Hsmfs.
  fold w2 in Hsm, Hsmfs. rewrite Hfst in Hsm. rewrite Hfs, Hrestored in Hsmfs.
  split; [|split].
  - unfold fastapi_app.serve.
    rewrite (handler_past_validation _ _ _ _ Hvalid). fold m.
    destruct (ServiceManager.transcribe_media _ _ _ _) as [r wsm].
    cbn [fst] in Hsm. subst r. reflexivity.
  - unfold events_of, new_events.
    rewrite (handler_trace_past_validation _ _ _ _ Hvalid).
    change (transcribe_from_upload _)
      with (OpenAITranscriptionAdapter.transcribe_from_upload
              env (Some (FFmpegAudioExtractionAdapter.new env))).
    fold m. fold w2.
    change (openai_calls
              (events_of
                 (OpenAITranscriptionAdapter.transcribe_from_upload
                    env (Some (FFmpegAudioExtractionAdapter.new env)) file m)
                 w2) = []).
    rewrite Hev.
    destruct (grows_extract_with_ffmpeg
                (fun ev => negb (is_openai_call ev))
                ltac:(intros ev H; cbv beta; rewrite H; reflexivity)
                env file w') as (evs & Htr & Hevs).
    unfold events_of. rewrite (new_events_app _ _ _ Htr).
    apply openai_calls_none, Hevs.
  - rewrite (handler_past_validation _ _ _ _ Hvalid). fold m.
    destruct (ServiceManager.transcribe_media _ _ _ _) as [[t|e] wsm];
      cbn [snd log w_fs] in Hsmfs |- *; rewrite Hsmfs, Hfs'; reflexivity.
Qed.

Lemma tool_failure_is_answered_500_witness :
  fst (fastapi_app.serve fastapi_app.respond_transcribe
         (fastapi_app.transcribe_media
            (bootstrap.wired_service_manager Sample.env_ffmpeg_fails)
            Sample.clip None) Sample.w0)
  = mkHttpResponse 500 (JsonBody Spec.generic_error_body)
  /\ openai_calls
       (events_of (fastapi_app.transcribe_media
                     (bootstrap.wired_service_manager Sample.env_ffmpeg_fails)
                     Sample.clip None) Sample.w0)
     = []
  /\ w_fs (snd (fastapi_app.transcribe_media
                  (bootstrap.wired_service_manager Sample.env_ffmpeg_fails)
                  Sample.clip None Sample.w0))
     = w_fs Sample.w0.
Proof.
  apply (tool_failure_is_answered_500
           Sample.env_ffmpeg_fails Sample.clip None Sample.w0
           "a" "b" (Some "Invalid data found") None);
    try reflexivity.
  discriminate.
Defined.

(** ** The two ways to a 200 *)

(** The handler's answer given the outcome of the service manager's
    adapter: the text with status 200, or the fixed 500 answer. *)
Lemma handler_answer sm file model w :
  fastapi_app.rejected_content_type (content_type file) = false ->
  fst (fastapi_app.serve fastapi_app.respond_transcribe
         (fastapi_app.transcribe_media sm file model) w)
  = match fst (transcribe_from_upload
                 (ServiceManager._transcription_service sm) file
                 (default fastapi_app.default_model model)
                 (snd (log INFO "Iniciando transcripción de archivo" None
                         (snd (log INFO "Recibida solicitud de transcripción"
                                   None w)))))
    with
    | Ok text =>
        mkHttpResponse 200
          (JsonBody [("transcription", JStr text); ("success", JBool true)])
    | Raise _ => mkHttpResponse 500 (JsonBody Spec.generic_error_body)
    end
  /\ w_fs (snd (fastapi_app.transcribe_media sm file model w))
     = w_fs (snd (transcribe_from_upload
                    (ServiceManager._transcription_service sm) file
                    (default fastapi_app.default_model model)
                    (snd (log INFO "Iniciando transcripción de archivo" None
                            (snd (log INFO
                                      "Recibida solicitud de transcripción"
                                      None w)))))).
Proof.
  intros Hvalid. unfold fastapi_app.serve.
  rewrite (handler_past_validation _ _ _ _ Hvalid).
  destruct (service_manager_run
              sm file (default fastapi_app.default_model model)
              (snd (log INFO "Recibida solicitud de transcripción" None w)))
    as (Hfst & Hfs & _).
  rewrite <- Hfst, <- Hfs.
  destruct (ServiceManager.transcribe_media _ _ _ _) as [[t|e] w'];
    split; reflexivity.
Qed.



(** An upload that passes the content-type check and has a supported
    extension, or any upload that passes it when no extraction service is
    injected: the answer is decided by the remote API alone, which is given
    the whole upload under its own name: 200 with its text, or the fixed
    500 answer when it raises. *)
Theorem direct_upload_answer_is_the_api_answer
    (env : Env) (with_extraction : bool) (file : UploadFile)
    (model : option string) (w : World) :
  fastapi_app.rejected_content_type (content_type file) = false ->
  with_extraction = false \/ media_prober file = AlreadySupported ->
  fst (fastapi_app.serve fastapi_app.respond_transcribe
         (fastapi_app.transcribe_media
            (service_manager env with_extraction) file model) w)
  = match env_openai env (default "whisper-1" model)
            (PyStr.or_default (filename file) "audio") (content file)
    with
    | Ok text =>
        mkHttpResponse 200
          (JsonBody [("transcription", JStr text); ("success", JBool true)])
    | Raise _ => mkHttpResponse 500 (JsonBody Spec.generic_error_body)
    end.
Proof.
  intros Hvalid Hdirect.
  destruct (handler_answer (service_manager env with_extraction)
              file model w Hvalid) as (Hanswer & _).
  rewrite Hanswer.
  change (transcribe_from_upload _)
    with (OpenAITranscriptionAdapter.transcribe_from_upload
            env (extraction_service env with_extraction)).
  destruct (direct_run env with_extraction file
              (default fastapi_app.default_model model)
              (snd (log INFO "Iniciando transcripción de archivo" None
                      (snd (log INFO "Recibida solicitud de transcripción"
                                None w))))
              Hdirect) as (_ & _ & Hfst).
  rewrite Hfst. reflexivity.
Qed.

Lemma direct_upload_answer_is_the_api_answer_witness :
  fst (fastapi_app.serve fastapi_app.respond_transcribe
         (fastapi_app.transcribe_media
            (service_manager Sample.env_ok true) Sample.voice None) Sample.w0)
  = mkHttpResponse 200
      (JsonBody [("transcription", JStr "hola"); ("success", JBool true)])
  /\ fst (fastapi_app.serve fastapi_app.respond_transcribe
            (fastapi_app.transcribe_media
               (service_manager Sample.env_openai_fails false)
               Sample.clip (Some "gpt-4o-transcribe")) Sample.w0)
     = mkHttpResponse 500 (JsonBody Spec.generic_error_body).
Proof.
  split.
  - rewrite (direct_upload_answer_is_the_api_answer
               Sample.env_ok true Sample.voice None Sample.w0 eq_refl
               (or_intror eq_refl)).
    reflexivity.
  - rewrite (direct_upload_answer_is_the_api_answer
               Sample.env_openai_fails false Sample.clip
               (Some "gpt-4o-transcribe") Sample.w0 eq_refl
               (or_introl eq_refl)).
    reflexivity.
Defined.

Lemma content_type_accepted_iff_witness :
  fastapi_app.rejected_content_type (Some "video/mp4") = false
  /\ ~ (exists t, Some "Audio/mpeg" = Some t
                  /\ (String.prefix "audio/" t = true
                      \/ String.prefix "video/" t = true)).
Proof.
  split.
  - apply (content_type_accepted_iff (Some "video/mp4")).
    exists "video/mp4". split; [reflexivity | right; reflexivity].
  - intros H. apply (content_type_accepted_iff (Some "Audio/mpeg")) in H.
    discriminate H.
Defined.

Lemma development_mode_iff_witness :
  logger._is_development (Some "Development") = true
  /\ List.last (logger.processors
                  (logger.configure_logging (Some "production")))
               logger.add_log_level
     = logger.JSONRenderer.
Proof.
  split.
  - apply (development_mode_iff (Some "Development")).
    right. exists "Development". split; reflexivity.
  - rewrite (proj2 (development_mode_iff (Some "production"))). reflexivity.
Defined.
